(** * XYO origin-chain node: packer, pipe framing, interaction driver,
      origin-chain repository and chain verifier

    A shallow embedding of the TypeScript sources

    - [src/xyo-packer/xyo-packer.ts]                       (module [XyoPacker])
    - [src/network/tcp-network/xyo-tcp-network-pipe.ts]    (module [XyoTcpNetworkPipe])
    - [xyo-bound-witness-interaction.ts]                   (module [XyoBoundWitnessInteraction])

    together with the two components of which only the interface or the
    test-suite is available, the origin-chain repository and the
    origin-chain verifier, which are modelled from the specification
    (modules [OriginChainRepository] and [OriginChainVerifier]). *)

From Stdlib Require Import ZArith List Lia Bool.
From stdpp Require Import base option list gmap strings.

Set Default Proof Using "Type".

(** ** Exceptions and results

    A JavaScript call either returns a value or throws.  Messages of
    errors are not modelled, only their kind. *)

(** [XyoError.errorType], the two members the modelled code uses. *)
Inductive errorType : Type :=
  | ERR_CREATOR_MAPPING
  | ERR_CRITICAL.

Inductive Exception : Type :=
  | XyoError (type : errorType)   (* [new XyoError(message, type)] *)
  | RangeError                    (* thrown by the runtime's Buffer writes *)
  | TypeError                     (* thrown by the runtime on [undefined[k]] *)
  | OutOfFuel.                    (* the model's bound on nested packer calls *)

Inductive Result (A : Type) : Type :=
  | Ok (value : A)
  | Throw (err : Exception).
Arguments Ok {A} value.
Arguments Throw {A} err.

Definition bind {A B : Type} (r : Result A) (k : A → Result B) : Result B :=
  match r with
  | Ok a => k a
  | Throw e => Throw e
  end.

#[global] Instance Result_ret : MRet Result := @Ok.
#[global] Instance Result_bind : MBind Result := fun A B k r => bind r k.

Definition throws {A : Type} (r : Result A) : Prop :=
  ∃ e, r = Throw e.

#[global] Instance errorType_eq_dec : EqDecision errorType.
Proof. solve_decision. Defined.
#[global] Instance Exception_eq_dec : EqDecision Exception.
Proof. solve_decision. Defined.

(** ** Buffers

    A Node.js [Buffer] is a sequence of bytes; a byte is an 8-bit
    integer kept in [Z]. *)

Module Buffer.

Abbreviation byte := Z.
Abbreviation t := (list byte).

(** [buffer.constants.MAX_LENGTH] of the Node.js runtime: the largest
    size [Buffer.alloc] accepts. *)
Definition kMaxLength : Z := 2 ^ 53 - 1.

(** [Buffer.alloc(size)], also [new Buffer(size)] with a
    zero-filling runtime; a size that is negative or above
    [kMaxLength] is a [RangeError]. *)
Definition alloc (size : Z) : Result t :=
  if decide (0 ≤ size ≤ kMaxLength)%Z then Ok (replicate (Z.to_nat size) 0%Z)
  else Throw RangeError.

(** [Buffer.from([a, b, ...])]: every entry is truncated to a byte. *)
Definition from (values : list Z) : t :=
  map (fun v => Z.land v 255) values.

(** [Buffer.concat(list)]. *)
Definition concat (list : list t) : t := List.concat list.

(** [Buffer.concat(list, totalLength)]: the result has exactly
    [totalLength] bytes, truncated or zero-filled. *)
Definition concat_to (list : list t) (totalLength : nat) : t :=
  take totalLength (List.concat list ++ replicate totalLength 0%Z).

(** [buf.slice(start)]. *)
Definition slice (buf : t) (start : nat) : t := drop start buf.

(** Overwrite [bytes] into [buf] from [offset]. *)
Definition blit (buf : t) (bytes : list byte) (offset : nat) : t :=
  take offset buf ++ bytes ++ drop (offset + length bytes) buf.

(** The writes are range checked by the runtime: the value must fit
    the width and the bytes must fit the buffer. *)
Definition checkInt (buf : t) (value : Z) (offset ext : nat) (max : Z) : bool :=
  bool_decide (0 ≤ value ≤ max)%Z && bool_decide (offset + ext ≤ length buf).

Definition writeUInt8 (buf : t) (value : Z) (offset : nat) : Result t :=
  if checkInt buf value offset 1 255
  then Ok (blit buf [Z.land value 255] offset)
  else Throw RangeError.

Definition writeUInt16BE (buf : t) (value : Z) (offset : nat) : Result t :=
  if checkInt buf value offset 2 65535
  then Ok (blit buf [Z.land (Z.shiftr value 8) 255; Z.land value 255] offset)
  else Throw RangeError.

Definition writeUInt32BE (buf : t) (value : Z) (offset : nat) : Result t :=
  if checkInt buf value offset 4 4294967295
  then Ok (blit buf [Z.land (Z.shiftr value 24) 255;
                     Z.land (Z.shiftr value 16) 255;
                     Z.land (Z.shiftr value 8) 255;
                     Z.land value 255] offset)
  else Throw RangeError.

(** The unsigned big-endian number a byte sequence denotes
    ([buf.readUIntBE(0, buf.length)]). *)
Definition readUIntBE (buf : t) : Z :=
  foldl (fun acc b => (acc * 256 + b)%Z) 0%Z buf.

(** A buffer only holds bytes. *)
Definition bytes (buf : t) : Prop := Forall (fun b => 0 ≤ b < 256)%Z buf.

End Buffer.

(** ** Serializers

  [XYOSerializer<T>] is the abstract class every codec extends; the
  class itself is not part of the modelled sources, its members are
  the ones the packer uses.  A serializer receives the packer as
  second argument of [serialize] and [deserialize]; what it can do
  with it is call back [serialize] and [deserialize], which is what
  a [PackerView] offers. *)

Module XYOSerializer.
Section Serializer.
Context {XyoObject : Type}.

Record PackerView : Type := {
  view_serialize : XyoObject → Z → Z → option bool → Result Buffer.t;
  view_deserialize : Buffer.t → Result XyoObject
}.

Record Description : Type := {
  major : Z;
  minor : Z
}.

Record t : Type := {
  description : Description;
  (** [sizeOfBytesToRead]: the width of the size prefix; [undefined]
      behaves as [0] in every use the packer makes of it
      ([!w] and [w || 0]). *)
  sizeOfBytesToRead : Z;
  serialize : XyoObject → PackerView → Result Buffer.t;
  deserialize : Buffer.t → PackerView → Result XyoObject
}.

(** Modelled from the spec: the getter [id] of [XYOSerializer] is
    declared in [xyo-serializer.ts], which is not among the sources;
    the typed framing is "one byte [major], one byte [minor]", so
    [id] is the two-byte buffer [Buffer.from([major, minor])]. *)
Definition id (s : t) : Buffer.t :=
  Buffer.from [major (description s); minor (description s)].

End Serializer.
Arguments PackerView : clear implicits.
Arguments t : clear implicits.
End XYOSerializer.

(** ** The packer ([xyo-packer.ts])

    [XyoPacker] keeps the serializers in an array and two indexes into
    it.  The indexes are JavaScript objects used as maps; their keys
    are the decimal strings of the numbers, one per integer.  The three
    fields are [private readonly]: a packer is only ever changed by
    [registerSerializerDeserializer]. *)

Module XyoPacker.
Section Packer.
Context {XyoObject : Type}.

Abbreviation Serializer := (XYOSerializer.t XyoObject).
Abbreviation PackerView := (XYOSerializer.PackerView XyoObject).

Record t : Type := {
  serializerDeserializersCollection : list Serializer;
  serializerDeserializersByNameIndex : gmap string nat;
  serializerDeserializerMajorMinorIndex : gmap Z (gmap Z nat)
}.

(** The index by name is a plain object, [{}]: besides its own
    properties it has the members of [Object.prototype]. *)
Definition ObjectPrototype : list string :=
  ["constructor"; "__defineGetter__"; "__defineSetter__"; "hasOwnProperty";
   "__lookupGetter__"; "__lookupSetter__"; "isPrototypeOf";
   "propertyIsEnumerable"; "toString"; "valueOf"; "__proto__";
   "toLocaleString"].

(** What reading [index[name]] yields: the number stored under the
    name, a member inherited from [Object.prototype] (a function, or
    the prototype itself), or [undefined]. *)
Inductive Property : Type :=
  | Number (value : nat)
  | Inherited
  | Undefined.

Definition getProperty (index : gmap string nat) (name : string) : Property :=
  match index !! name with
  | Some value => Number value
  | None => if decide (name ∈ ObjectPrototype) then Inherited else Undefined
  end.

(** [index[name] = value]: the setter of ["__proto__"] ignores a
    number; every other name becomes an own property. *)
Definition setProperty (index : gmap string nat) (name : string) (value : nat)
    : gmap string nat :=
  if decide (name = "__proto__") then index else <[name := value]> index.

(** The field initialisers of the class. *)
Definition new : t := {|
  serializerDeserializersCollection := [];
  serializerDeserializersByNameIndex := ∅;
  serializerDeserializerMajorMinorIndex := ∅
|}.

Definition registerSerializerDeserializer
    (name : string) (serializerDeserializer : Serializer) (this : t) : t :=
  (* Add to collection *)
  let collection := serializerDeserializersCollection this ++ [serializerDeserializer] in
  (* Add to the indexes *)
  let index := length collection - 1 in
  let major := XYOSerializer.major (XYOSerializer.description serializerDeserializer) in
  let minor := XYOSerializer.minor (XYOSerializer.description serializerDeserializer) in
  let byName := setProperty (serializerDeserializersByNameIndex this) name index in
  (* [idx[major] = idx[major] || {}] *)
  let byMajor :=
    <[major := default ∅ (serializerDeserializerMajorMinorIndex this !! major)]>
      (serializerDeserializerMajorMinorIndex this) in
  (* [idx[major][minor] = index] *)
  let byMajorMinor :=
    <[major := <[minor := index]> (default ∅ (byMajor !! major))]> byMajor in
  {| serializerDeserializersCollection := collection;
     serializerDeserializersByNameIndex := byName;
     serializerDeserializerMajorMinorIndex := byMajorMinor |}.

(** [encodedSize]: the size prefix of [sizeOfData] bytes of data. *)
Definition encodedSize (sizeOfData : Z) (config : Serializer) : Result Buffer.t :=
  let w := XYOSerializer.sizeOfBytesToRead config in
  if decide (w = 0)%Z then Buffer.alloc 0
  else
    buffer ← Buffer.alloc w;
    if decide (w = 1)%Z then Buffer.writeUInt8 buffer (sizeOfData + w) 0
    else if decide (w = 2)%Z then Buffer.writeUInt16BE buffer (sizeOfData + w) 0
    else if decide (w = 4)%Z then Buffer.writeUInt32BE buffer (sizeOfData + w) 0
    else Ok buffer.

Definition makeTyped (data : Buffer.t) (config : Serializer) : Result Buffer.t :=
  encodedSizeBuffer ← encodedSize (Z.of_nat (length data)) config;
  let dataBuffer := data in
  let typedBufferSize :=
    length (XYOSerializer.id config) + length encodedSizeBuffer + length dataBuffer in
  Ok (Buffer.concat_to [XYOSerializer.id config; encodedSizeBuffer; dataBuffer]
        typedBufferSize).

Definition makeUntyped (data : Buffer.t) (config : Serializer) : Result Buffer.t :=
  encodedSizeBuffer ← encodedSize (Z.of_nat (length data)) config;
  let dataBuffer := data in
  let typedBufferSize := length encodedSizeBuffer + length dataBuffer in
  Ok (Buffer.concat_to [encodedSizeBuffer; dataBuffer] typedBufferSize).

Definition couldNotFindSerializer {A : Type} : Result A :=
  Throw (XyoError ERR_CREATOR_MAPPING).

(** [serialize] and [deserialize] hand [this] on to the serializer they
    select.  In the model the fields are read from [this] and the
    calls a serializer can make back are those of [self]. *)
Definition serialize (self : PackerView) (this : t)
    (object : XyoObject) (major minor : Z) (typed : option bool) : Result Buffer.t :=
  match serializerDeserializerMajorMinorIndex this !! major with
  | Some minors =>
    match minors !! minor with
    | Some index =>
      if decide (index < length (serializerDeserializersCollection this)) then
        match serializerDeserializersCollection this !! index with
        | Some serializer =>
          serialized ← XYOSerializer.serialize serializer object self;
          match typed with
          | None => Ok serialized
          | Some true => makeTyped serialized serializer
          | Some false => makeUntyped serialized serializer
          end
        | None => Throw TypeError
        end
      else couldNotFindSerializer
    | None => couldNotFindSerializer
    end
  | None => couldNotFindSerializer
  end.

Definition deserialize (self : PackerView) (this : t) (buffer : Buffer.t)
    : Result XyoObject :=
  if decide (length buffer < 2) then Throw (XyoError ERR_CREATOR_MAPPING)
  else
    match buffer !! 0, buffer !! 1 with
    | Some major, Some minor =>
      match serializerDeserializerMajorMinorIndex this !! major with
      | Some minors =>
        match minors !! minor with
        | Some index =>
          if decide (index < length (serializerDeserializersCollection this)) then
            match serializerDeserializersCollection this !! index with
            | Some serializer =>
              (* the [catch] logs and rethrows *)
              XYOSerializer.deserialize serializer (Buffer.slice buffer 2) self
            | None => Throw TypeError
            end
          else couldNotFindSerializer
        | None => couldNotFindSerializer
        end
      | None => couldNotFindSerializer
      end
    | _, _ => Throw TypeError
    end.

Definition getSerializerByMajorMinor (this : t) (major minor : Z)
    : Result (option Serializer) :=
  match serializerDeserializerMajorMinorIndex this !! major with
  | None => Throw TypeError            (* [undefined[minor]] *)
  | Some minors =>
    match minors !! minor with
    | Some index =>
      if decide (index < length (serializerDeserializersCollection this))
      then Ok (serializerDeserializersCollection this !! index)
      else Ok None
    | None => Ok None                  (* [undefined < n] is false *)
    end
  end.

(** An inherited member is neither [undefined] nor, compared as a
    number ([NaN]), at least the length: the lookup goes on to
    [collection[member]], which is [undefined]. *)
Definition getSerializerByName (this : t) (name : string)
    : Result (option Serializer) :=
  match getProperty (serializerDeserializersByNameIndex this) name with
  | Undefined => Throw (XyoError ERR_CREATOR_MAPPING)
  | Inherited => Ok None
  | Number serializerIndex =>
    if decide (length (serializerDeserializersCollection this) ≤ serializerIndex)
    then Throw (XyoError ERR_CREATOR_MAPPING)
    else Ok (serializerDeserializersCollection this !! serializerIndex)
  end.

(** Tying the knot: the packer a serializer is handed is the packer
    itself.  [fuel] bounds the depth of nested calls through
    serializers. *)
Fixpoint view (fuel : nat) (this : t) : PackerView :=
  match fuel with
  | O => {| XYOSerializer.view_serialize := fun _ _ _ _ => Throw OutOfFuel;
            XYOSerializer.view_deserialize := fun _ => Throw OutOfFuel |}
  | S fuel' =>
    {| XYOSerializer.view_serialize := serialize (view fuel' this) this;
       XYOSerializer.view_deserialize := deserialize (view fuel' this) this |}
  end.

(** A packer as the program builds it: registrations on a new packer. *)
Definition registerAll (registrations : list (string * Serializer)) (this : t) : t :=
  foldl (fun p r => registerSerializerDeserializer r.1 r.2 p) this registrations.

(** *** The registrations a packer has seen

    [registerSerializerDeserializer] only ever pushes onto the
    collection, so the collection is the history of registrations. *)

Definition hasType (major minor : Z) (s : Serializer) : Prop :=
  XYOSerializer.major (XYOSerializer.description s) = major
  ∧ XYOSerializer.minor (XYOSerializer.description s) = minor.

Definition hasMajor (major : Z) (s : Serializer) : Prop :=
  XYOSerializer.major (XYOSerializer.description s) = major.

#[global] Instance hasType_dec major minor s : Decision (hasType major minor s).
Proof. unfold hasType. apply _. Defined.

#[global] Instance hasMajor_dec major s : Decision (hasMajor major s).
Proof. unfold hasMajor. apply _. Defined.

(** The serializer registered last under [(major, minor)], if any. *)
Definition latest (registered : list Serializer) (major minor : Z) : option Serializer :=
  last (filter (hasType major minor) registered).

(** Whether some registration had this [major]. *)
Definition majorRegistered (registered : list Serializer) (major : Z) : Prop :=
  Exists (hasMajor major) registered.

#[global] Instance majorRegistered_dec registered major :
  Decision (majorRegistered registered major).
Proof. unfold majorRegistered. apply _. Defined.

Definition lookupIndex (this : t) (major minor : Z) : option nat :=
  minors ← serializerDeserializerMajorMinorIndex this !! major; minors !! minor.

(** The indexes of a packer agree with its collection. *)
Record consistent (this : t) : Prop := {
  consistent_major : ∀ major,
    is_Some (serializerDeserializerMajorMinorIndex this !! major)
    ↔ majorRegistered (serializerDeserializersCollection this) major;
  consistent_index : ∀ major minor,
    match lookupIndex this major minor with
    | Some index =>
      index < length (serializerDeserializersCollection this)
      ∧ serializerDeserializersCollection this !! index
        = latest (serializerDeserializersCollection this) major minor
    | None => latest (serializerDeserializersCollection this) major minor = None
    end
}.

End Packer.
Arguments t : clear implicits.

End XyoPacker.

(** ** Promises

    What an awaited promise does: it is fulfilled with a value, it is
    rejected, or it never settles. *)

Inductive Settled (A : Type) : Type :=
  | Fulfilled (value : A)
  | Rejected (reason : Exception)
  | Forever.
Arguments Fulfilled {A} value.
Arguments Rejected {A} reason.
Arguments Forever {A}.

(** ** The TCP pipe ([xyo-tcp-network-pipe.ts]) *)

Module XyoTcpNetworkPipe.

(** The socket of the connection result, as far as [send] and [close]
    touch it: the buffers written, the number of ['data'] listeners
    and whether it was ended. *)
Record Socket : Type := {
  written : list Buffer.t;
  dataListeners : nat;
  ended : bool
}.

(** A helper function to add a size header to the buffer. *)
Definition padBufferWithSize (b : Buffer.t) : Result Buffer.t :=
  sizeBuffer ← Buffer.alloc 4;
  sizeBuffer ← Buffer.writeUInt32BE sizeBuffer (Z.of_nat (length b) + 4) 0;
  Ok (Buffer.concat [sizeBuffer; b]).

(** The promise [send] returns: already resolved with [undefined], or
    waiting for the ['data'] listener it has installed. *)
Inductive SendPromise : Type :=
  | ResolvedUndefined
  | AwaitingData.

Definition send (socket : Socket) (message : Buffer.t) (awaitResponse : option bool)
    : Result (Socket * SendPromise) :=
  networkMessage ← padBufferWithSize message;
  let socket := {| written := written socket ++ [networkMessage];
                   dataListeners := dataListeners socket;
                   ended := ended socket |} in
  match awaitResponse with
  | Some false => Ok (socket, ResolvedUndefined)
  | _ =>
    Ok ({| written := written socket;
           dataListeners := S (dataListeners socket);
           ended := ended socket |}, AwaitingData)
  end.

Definition close (socket : Socket) : Socket :=
  {| written := written socket;
     dataListeners := dataListeners socket;
     ended := true |}.

End XyoTcpNetworkPipe.

(** ** The interaction driver ([xyo-bound-witness-interaction.ts]) *)

Module XyoBoundWitnessInteraction.

(** Modelled from the spec: [xyo-tcp-network-constants.ts] is not
    among the sources.  The catalogue header is "1 byte:
    catalogue-header size (fixed constant equal to 4)" followed by
    "4 bytes big-endian: catalogue-item bitmask". *)
Definition XYO_TCP_CATALOGUE_LENGTH_IN_BYTES : Z := 4.

(** Modelled from the spec: the second constant of
    [xyo-tcp-network-constants.ts], the width of the size byte,
    "1 byte: catalogue-header size". *)
Definition XYO_TCP_CATALOGUE_SIZE_OF_SIZE_BYTES : Z := 1.

(** The points where [run] is suspended, in program order.  The
    disconnect listener can only run while [run] is suspended. *)
Inductive Await : Type :=
  | AwaitStartBoundWitness
  | AwaitTransfer1          (* [boundWitness.incomingData(undefined, false)] *)
  | AwaitSend1              (* [networkPipe.send(bytesToSend)] *)
  | AwaitTransfer2          (* [boundWitness.incomingData(transferObj, false)] *)
  | AwaitSend2              (* [networkPipe.send(transferBytes, false)] *)
  | AwaitClose.             (* [networkPipe.close()] *)

(** What [run] does to the pipe. *)
Inductive Event : Type :=
  | Sent (message : Buffer.t) (awaitResponse : option bool)
  | Unregistered
  | Closed.

Section Interaction.
Context {XyoObject XyoSigner XyoPayload ZigZag : Type}.

Abbreviation PackerView := (XYOSerializer.PackerView XyoObject).

(** Members of classes that are not among the sources: the [major] and
    [minor] of an [XyoObject]; the constructor of the assembler
    [XyoZigZagBoundWitness], its method [incomingData], which updates
    the assembler and returns a transfer, and the assembler seen as
    the [XyoObject] it extends; the name of the transfer class and the
    catalogue item. *)
Context (major minor : XyoObject → Z).
Context (XyoZigZagBoundWitness :
           XyoPacker.t XyoObject → list XyoSigner → XyoPayload → ZigZag).
Context (incomingData :
           ZigZag → option XyoObject → bool → Settled (ZigZag * XyoObject)).
Context (asObject : ZigZag → XyoObject).
Context (XyoBoundWitnessTransfer_name : string).
Context (BOUND_WITNESS : Z).

(** [XyoNetworkPipe], the interface: what [send] and [close] settle
    to, and at which suspension points of [run] the peer-disconnect
    listener is called. *)
Record XyoNetworkPipe : Type := {
  send : Buffer.t → option bool → Settled (option Buffer.t);
  close : Settled ();
  peerDisconnects : Await → bool
}.

Record t : Type := {
  xyoPacker : XyoPacker.t XyoObject;
  networkPipe : XyoNetworkPipe;
  signers : list XyoSigner;
  payload : XyoPayload
}.

Definition startBoundWitness (this : t) : ZigZag :=
  XyoZigZagBoundWitness (xyoPacker this) (signers this) (payload this).

Definition Run : Type := Settled ZigZag * list Event.

(** The executor of the promise is an [async] function: when it
    throws, or waits for a promise that is rejected or never settles,
    neither [resolve] nor [reject] is called and the promise of [run]
    never settles. *)
Definition orThrow {A : Type} (trace : list Event) (r : Result A) (k : A → Run) : Run :=
  match r with
  | Ok a => k a
  | Throw _ => (Forever, trace)
  end.

Definition await {A : Type} (trace : list Event) (p : Settled A) (k : A → Run) : Run :=
  match p with
  | Fulfilled a => k a
  | Rejected _ | Forever => (Forever, trace)
  end.

Definition peerDisconnected : Exception := XyoError ERR_CRITICAL.

(** The message of step 1: catalogue header, then the transfer. *)
Definition catalogueMessage (bytes : Buffer.t) : Result Buffer.t :=
  catalogueBuffer ← Buffer.alloc XYO_TCP_CATALOGUE_LENGTH_IN_BYTES;
  catalogueBuffer ← Buffer.writeUInt32BE catalogueBuffer BOUND_WITNESS 0;
  sizeOfCatalogueInBytesBuffers ← Buffer.alloc XYO_TCP_CATALOGUE_SIZE_OF_SIZE_BYTES;
  sizeOfCatalogueInBytesBuffers ←
    Buffer.writeUInt8 sizeOfCatalogueInBytesBuffers XYO_TCP_CATALOGUE_LENGTH_IN_BYTES 0;
  Ok (Buffer.concat [sizeOfCatalogueInBytesBuffers; catalogueBuffer; bytes]).

Definition run (self : PackerView) (this : t) : Run :=
  let packer := xyoPacker this in
  let pipe := networkPipe this in
  let disconnected := false in
  if negb disconnected then
    (* Create the bound witness *)
    let boundWitness := startBoundWitness this in
    let disconnected := disconnected || peerDisconnects pipe AwaitStartBoundWitness in
    if negb disconnected then
      (* Do step 1 of the bound witness *)
      await [] (incomingData boundWitness None false) (fun '(boundWitness, boundWitnessTransfer1) =>
      let disconnected := disconnected || peerDisconnects pipe AwaitTransfer1 in
      (* the argument of [logInfo] *)
      orThrow [] (XyoPacker.serialize self packer (asObject boundWitness)
                    (major (asObject boundWitness)) (minor (asObject boundWitness))
                    (Some true)) (fun _ =>
      (* Serialize the transfer value *)
      orThrow [] (XyoPacker.serialize self packer boundWitnessTransfer1
                    (major boundWitnessTransfer1) (minor boundWitnessTransfer1)
                    (Some false)) (fun bytes =>
      (* Tell the other node this is the catalogue item you chose *)
      orThrow [] (catalogueMessage bytes) (fun bytesToSend =>
      if negb disconnected then
        (* Send the message and wait for reply *)
        let trace := [Sent bytesToSend None] in
        await trace (send pipe bytesToSend None) (fun response =>
        let disconnected := disconnected || peerDisconnects pipe AwaitSend1 in
        (* Deserialize bytes into bound witness *)
        orThrow trace (XyoPacker.getSerializerByName packer XyoBoundWitnessTransfer_name)
          (fun serializer =>
        orThrow trace (match serializer, response with
                       | Some serializer, Some response =>
                         XYOSerializer.deserialize serializer response self
                       | _, _ => Throw TypeError
                       end) (fun transferObj =>
        (* Add transfer to bound witness *)
        await trace (incomingData boundWitness (Some transferObj) false)
          (fun '(boundWitness, transfer) =>
        let disconnected := disconnected || peerDisconnects pipe AwaitTransfer2 in
        orThrow trace (XyoPacker.serialize self packer (asObject boundWitness)
                         (major (asObject boundWitness)) (minor (asObject boundWitness))
                         (Some true)) (fun _ =>
        if negb disconnected then
          (* serialize the bound witness transfer *)
          orThrow trace (XyoPacker.serialize self packer transfer
                           (major transfer) (minor transfer) (Some false))
            (fun transferBytes =>
          (* Send transfer data, but dont wait for reply *)
          let trace := trace ++ [Sent transferBytes (Some false)] in
          await trace (send pipe transferBytes (Some false)) (fun _ =>
          (* the listener may still run here; the flag is not read again *)
          let disconnected := disconnected || peerDisconnects pipe AwaitSend2 in
          (* Stop listening for disconnect events *)
          let trace := trace ++ [Unregistered] in
          (* Close the connection *)
          let trace := trace ++ [Closed] in
          await trace (close pipe) (fun _ =>
          (* Return the resulting bound-witness *)
          (Fulfilled boundWitness, trace))))
        else (Rejected peerDisconnected, trace))))))
      else (Rejected peerDisconnected, [])))))
    else (Rejected peerDisconnected, [])
  else (Rejected peerDisconnected, []).

(** The messages a run has sent, in order. *)
Definition sent (trace : list Event) : list (Buffer.t * option bool) :=
  omap (fun e => match e with
                 | Sent message awaitResponse => Some (message, awaitResponse)
                 | _ => None
                 end) trace.

(** The same interaction over a pipe whose peer never disconnects:
    every step of the exchange as in [this]. *)
Definition undisturbed (this : t) : t := {|
  xyoPacker := xyoPacker this;
  networkPipe := {| send := send (networkPipe this);
                    close := close (networkPipe this);
                    peerDisconnects := fun _ => false |};
  signers := signers this;
  payload := payload this
|}.

(** Whether the listener has run by the time [run] last reads the
    flag, before the second send. *)
Definition observed (pipe : XyoNetworkPipe) : bool :=
  peerDisconnects pipe AwaitStartBoundWitness
  || peerDisconnects pipe AwaitTransfer1
  || peerDisconnects pipe AwaitSend1
  || peerDisconnects pipe AwaitTransfer2.

End Interaction.
End XyoBoundWitnessInteraction.

(** ** The origin-chain repository

    Of the repository the sources hold the interface
    [IXyoOriginChainRepository] only ([origin-chain/src/@types/index.ts]):
    "The previousHash will be set to the hash passed in.  The index
    will be incremented.  And, signers will be rotated if there is a
    queue".  The state and the operations follow the specification. *)

Module OriginChainRepository.
Section Repository.
Context {Hash Signer PublicKey : Type}.

(** Modelled from the spec: the state of the repository, which no
    source file declares.  "index: u64 -- number of blocks already
    committed", "previous_hash: Option<Hash>", "current_signers:
    deque<Signer>", "waiting_signers: deque<Signer>",
    "next_public_key: Option<PublicKey>".  The index is a 64-bit
    unsigned integer, kept in [Z]. *)
Record State : Type := {
  index : Z;
  previous_hash : option Hash;
  current_signers : list Signer;
  waiting_signers : list Signer;
  next_public_key : option PublicKey
}.

(** Modelled from the spec: the implementation of the repository is
    not among the sources.  "Lifecycle: created empty". *)
Definition genesis : State := {|
  index := 0;
  previous_hash := None;
  current_signers := [];
  waiting_signers := [];
  next_public_key := None
|}.

(** Modelled from the spec: the implementation is not among the
    sources.  "add_signer(s) -> appends to waiting_signers". *)
Definition add_signer (s : Signer) (st : State) : State := {|
  index := index st;
  previous_hash := previous_hash st;
  current_signers := current_signers st;
  waiting_signers := waiting_signers st ++ [s];
  next_public_key := next_public_key st
|}.

(** Modelled from the spec: the implementation is not among the
    sources.  "update_origin_chain_state(hash) -> atomically: sets
    previous_hash := Some(hash); index := index + 1; if
    waiting_signers non-empty, drains the front element into the tail
    of current_signers; clears next_public_key".  The sum is that of
    the type of the index, [u64]: it wraps around at [2^64]. *)
Definition update_origin_chain_state (hash : Hash) (st : State) : State := {|
  index := (index st + 1) mod 2 ^ 64;
  previous_hash := Some hash;
  current_signers :=
    match waiting_signers st with
    | [] => current_signers st
    | front :: _ => current_signers st ++ [front]
    end;
  waiting_signers :=
    match waiting_signers st with
    | [] => []
    | _ :: rest => rest
    end;
  next_public_key := None
|}.

(** Modelled from the spec: the calls of a session on the repository,
    the reads of section 4.2 and the update.  The repository is
    single-writer, "all mutations are serialized": a history is a
    sequence of calls, each running to completion. *)
Inductive Read : Type :=
  | get_index
  | get_previous_hash
  | get_signers
  | get_waiting_signers
  | get_genesis_signer
  | get_next_public_key.

(** Modelled from the spec: what the reads of section 4.2 return. *)
Inductive Answer : Type :=
  | AnIndex (i : Z)
  | AHash (h : option Hash)
  | Signers (l : list Signer)
  | ASigner (s : option Signer)
  | AKey (k : option PublicKey).

(** Modelled from the spec: the reads of section 4.2, which no source
    file implements; "get_genesis_signer() = current_signers[0] if
    any". *)
Definition read (r : Read) (st : State) : Answer :=
  match r with
  | get_index => AnIndex (index st)
  | get_previous_hash => AHash (previous_hash st)
  | get_signers => Signers (current_signers st)
  | get_waiting_signers => Signers (waiting_signers st)
  | get_genesis_signer => ASigner (head (current_signers st))
  | get_next_public_key => AKey (next_public_key st)
  end.

(** Modelled from the spec: a call of a session on the repository, a
    read or the update. *)
Inductive Call : Type :=
  | DoRead (r : Read)
  | DoUpdate (hash : Hash).

(** Modelled from the spec: one call, run to completion: the state
    after it and what it returns. *)
Definition call (c : Call) (st : State) : State * option Answer :=
  match c with
  | DoRead r => (st, Some (read r st))
  | DoUpdate hash => (update_origin_chain_state hash st, None)
  end.



End Repository.
Arguments State : clear implicits.
Arguments Call : clear implicits.
End OriginChainRepository.

(** ** The origin-chain verifier

    Of the verifier the sources hold the test-suite only
    ([xyo-origin-chain-verifier.spec.ts]); the verifier follows
    section 4.5 of the specification, the blocks section 3. *)

Module OriginChainVerifier.

(** Modelled from the spec: the error kinds of section 7 a report can
    carry. *)
Inductive ErrorKind : Type :=
  | Malformed
  | SignatureInvalid
  | ChainLinkageInvalid.

(** Modelled from the spec: the report of the verifier, "{is_valid:
    bool, first_invalid_index?: usize, reason?: ErrorKind}". *)
Record Report : Type := {
  is_valid : bool;
  first_invalid_index : option nat;
  reason : option ErrorKind
}.

Section Verifier.
Context {PublicKey Signature HashAlgorithm : Type}.
Context `{!EqDecision PublicKey}.

(** Modelled from the spec: "Hash.  An opaque byte string tagged by a
    hash algorithm identifier.  Equality is byte equality." *)
Record Hash : Type := {
  algorithm : HashAlgorithm;
  digest : Buffer.t
}.

(** Modelled from the spec: the heuristic items the verifier reads;
    every other item is [Other]. *)
Inductive Heuristic : Type :=
  | ChainIndex (i : N)
  | PreviousHash (h : Hash)
  | NextPublicKey (p : PublicKey)
  | Other (bytes : Buffer.t).

(** Modelled from the spec: "Payload.  A pair of ordered heuristic
    lists". *)
Record Payload : Type := {
  signed_heuristics : list Heuristic;
  unsigned_heuristics : list Heuristic
}.

(** Modelled from the spec: "BoundWitness.  Parallel ordered lists of
    equal length N (number of participants)"; a participant brings
    the public keys of its signers and one signature per key. *)
Record BoundWitness : Type := {
  public_keys : list (list PublicKey);
  payloads : list Payload;
  signatures : list (list Signature)
}.

(** The capabilities the verifier is handed: the hash providers, the
    signature check of a public key and the canonical signing data of
    a block. *)
Context (hash : HashAlgorithm → BoundWitness → Buffer.t).
Context (verifySignature : PublicKey → Buffer.t → Signature → bool).
Context (signing_data : BoundWitness → Buffer.t).

(** Modelled from the spec: "extract ChainIndex from P's signed
    heuristics", the first such item. *)
Fixpoint chainIndexOf (items : list Heuristic) : option N :=
  match items with
  | [] => None
  | ChainIndex i :: _ => Some i
  | _ :: items => chainIndexOf items
  end.

(** Modelled from the spec: "extract PreviousHash", the first such
    item. *)
Fixpoint previousHashOf (items : list Heuristic) : option Hash :=
  match items with
  | [] => None
  | PreviousHash h :: _ => Some h
  | _ :: items => previousHashOf items
  end.

(** Modelled from the spec: the "NextPublicKey(p) item attributed to
    P", the first such item. *)
Fixpoint nextPublicKeyOf (items : list Heuristic) : option PublicKey :=
  match items with
  | [] => None
  | NextPublicKey p :: _ => Some p
  | _ :: items => nextPublicKeyOf items
  end.

(** Modelled from the spec: "P's signed heuristics" in a block, [P]
    being identified by position. *)
Definition signedOf (P : nat) (block : BoundWitness) : list Heuristic :=
  from_option signed_heuristics [] (payloads block !! P).

(** Modelled from the spec: "P's set of public keys" in a block. *)
Definition keysOf (P : nat) (block : BoundWitness) : list PublicKey :=
  default [] (public_keys block !! P).

(** Modelled from the spec: check 1, the invariants of section 3 on
    the shape of a block: parallel lists of equal length, at least one
    participant, no duplicate public key. *)
Definition invariantsHold (block : BoundWitness) : bool :=
  bool_decide (length (public_keys block) = length (payloads block))
  && bool_decide (length (public_keys block) = length (signatures block))
  && bool_decide (1 ≤ length (public_keys block))
  && bool_decide (NoDup (mjoin (public_keys block))).

(** Modelled from the spec: check 5, "for every i,
    public_keys[i].verify(signing_data, signatures[i]) == true". *)
Fixpoint allVerify (data : Buffer.t) (keys : list PublicKey) (sigs : list Signature)
    : bool :=
  match keys, sigs with
  | [], [] => true
  | key :: keys, sig :: sigs => verifySignature key data sig && allVerify data keys sigs
  | _, _ => false
  end.

(** Modelled from the spec: check 5 over all participants. *)
Fixpoint signaturesVerify (data : Buffer.t)
    (keys : list (list PublicKey)) (sigs : list (list Signature)) : bool :=
  match keys, sigs with
  | [], [] => true
  | ks :: keys, ss :: sigs => allVerify data ks ss && signaturesVerify data keys sigs
  | _, _ => false
  end.

(** Modelled from the spec: the first half of check 2 for one
    participant's contribution, "extract ChainIndex from P's signed
    heuristics": there is one to extract. *)
Definition signsIndex (payload : Payload) : bool :=
  match chainIndexOf (signed_heuristics payload) with
  | Some _ => true
  | None => false
  end.

(** Modelled from the spec: the checks are made "for each block B_k
    and each participant P's contribution", and a block in which one
    participant signs no chain index is refused, whoever owns the
    chain: scenario S2, "B's signed-heuristics list is empty ->
    verifier returns is_valid=false with ChainLinkageInvalid (missing
    index)". *)
Definition everyoneSignsIndex (block : BoundWitness) : bool :=
  forallb signsIndex (payloads block).

(** Modelled from the spec: the checks of section 4.5, in order, on
    block [block] at position [k] of the chain of participant [P];
    [previous] is the block before it.  The expected index and the
    links to the block before are those of the chain of [P]: the other
    participants of a block sign the indices of their own chains. *)
Definition checkBlock (P : nat) (k : nat) (previous : option BoundWitness)
    (block : BoundWitness) : option ErrorKind :=
  (* 1. all internal block invariants hold *)
  if negb (invariantsHold block) then Some Malformed
  (* 2. a chain index is extracted from the signed heuristics of every
        participant; that of P is the expected one: 0 at the earliest
        block supplied, incrementing by 1 *)
  else if negb (everyoneSignsIndex block) then Some ChainLinkageInvalid
  else if negb (bool_decide (chainIndexOf (signedOf P block) = Some (N.of_nat k)))
  then Some ChainLinkageInvalid
  (* 3. for k >= 1 the previous hash is byte-equal to the hash of the
        block before, by the algorithm the previous hash declares *)
  else if negb (match previous with
                | None => true
                | Some before =>
                  match previousHashOf (signedOf P block) with
                  | Some h => bool_decide (digest h = hash (algorithm h) before)
                  | None => false
                  end
                end)
  then Some ChainLinkageInvalid
  (* 4. a next public key announced by the block before is among the
        public keys of this block *)
  else if negb (match previous with
                | None => true
                | Some before =>
                  match nextPublicKeyOf (signedOf P before) with
                  | Some p => bool_decide (p ∈ keysOf P block)
                  | None => true
                  end
                end)
  then Some ChainLinkageInvalid
  (* 5. signatures verify against the signing data *)
  else if negb (signaturesVerify (signing_data block)
                  (public_keys block) (signatures block))
  then Some SignatureInvalid
  else None.

(** Modelled from the spec: the report of an accepted list. *)
Definition valid : Report :=
  {| is_valid := true; first_invalid_index := None; reason := None |}.

(** Modelled from the spec: the report of a failure, "the index and an
    error kind". *)
Definition invalid (k : nat) (kind : ErrorKind) : Report :=
  {| is_valid := false; first_invalid_index := Some k; reason := Some kind |}.

(** Modelled from the spec: the blocks are checked in order; "on any
    failure, return early with the index and an error kind". *)
Fixpoint verifyFrom (P : nat) (k : nat) (previous : option BoundWitness)
    (blocks : list BoundWitness) : Report :=
  match blocks with
  | [] => valid
  | block :: blocks =>
    match checkBlock P k previous block with
    | Some kind => invalid k kind
    | None => verifyFrom P (S k) (Some block) blocks
    end
  end.

(** Modelled from the spec: "Given an ordered list of blocks claimed
    to be the tail of one peer P's origin chain, and a reference to P
    (identified by position ...), decide validity and return a
    report". *)
Definition verify (P : nat) (blocks : list BoundWitness) : Report :=
  verifyFrom P 0 None blocks.

(** Modelled from the spec: a completed block, as two peers produce
    it: its invariants hold, every participant signs a chain index and
    the signatures verify (check 1, the first half of check 2 and
    check 5). *)
Definition sound (block : BoundWitness) : Prop :=
  invariantsHold block = true
  ∧ everyoneSignsIndex block = true
  ∧ signaturesVerify (signing_data block) (public_keys block) (signatures block)
    = true.

(** Modelled from the spec: what scenario S3 supposes of its two
    blocks, "two sequential bound witnesses on A's chain with valid
    PreviousHash linkage": both are sound blocks, the first opens the
    chain supplied, the second carries the next index and the hash of
    the first, and is signed with the key the first announces, if it
    announces one. *)
Definition sequential (P : nat) (B1 B2 : BoundWitness) : Prop :=
  sound B1 ∧ sound B2
  ∧ chainIndexOf (signedOf P B1) = Some 0%N
  ∧ chainIndexOf (signedOf P B2) = Some 1%N
  ∧ (∃ h, previousHashOf (signedOf P B2) = Some h
          ∧ digest h = hash (algorithm h) B1)
  ∧ (∀ p, nextPublicKeyOf (signedOf P B1) = Some p → p ∈ keysOf P B2).

End Verifier.
Arguments Hash : clear implicits.
Arguments Heuristic : clear implicits.
Arguments Payload : clear implicits.
Arguments BoundWitness : clear implicits.
End OriginChainVerifier.

(** ** A small instance

    Objects that carry their type and their bytes, serializers for
    them, and a peer for the interaction driver: enough to run the
    definitions above. *)

Module Sample.

Record XyoObject : Type := Blob {
  major : Z;
  minor : Z;
  data : Buffer.t
}.

(** A serializer of width [w] for the type [(major, minor)]: it writes
    the bytes of the object and, reading, drops the size prefix. *)
Definition blobSerializer (major minor w : Z) : XYOSerializer.t XyoObject := {|
  XYOSerializer.description :=
    {| XYOSerializer.major := major; XYOSerializer.minor := minor |};
  XYOSerializer.sizeOfBytesToRead := w;
  XYOSerializer.serialize := fun object _ => Ok (data object);
  XYOSerializer.deserialize := fun buffer _ =>
    if decide (Z.to_nat w ≤ length buffer)
    then Ok (Blob major minor (drop (Z.to_nat w) buffer))
    else Throw (XyoError ERR_CRITICAL)
|}.

Definition byteSized : XYOSerializer.t XyoObject := blobSerializer 8 1 1.
Definition shortSized : XYOSerializer.t XyoObject := blobSerializer 8 1 2.
Definition boundWitness : XYOSerializer.t XyoObject := blobSerializer 2 1 4.
Definition boundWitnessTransfer : XYOSerializer.t XyoObject := blobSerializer 2 10 4.

Definition registrations : list (string * XYOSerializer.t XyoObject) :=
  [("ByteSized", byteSized);
   ("XyoBoundWitness", boundWitness);
   ("XyoBoundWitnessTransfer", boundWitnessTransfer)].

Definition packer : XyoPacker.t XyoObject :=
  XyoPacker.registerAll registrations XyoPacker.new.

Definition self : XYOSerializer.PackerView XyoObject := XyoPacker.view 1 packer.

(** An assembler that counts its steps: the transfer of step [n] is
    the blob [[n]], the block so far the blob of the steps taken. *)
Definition incomingData (steps : list Z) (transfer : option XyoObject) (endPoint : bool)
    : Settled (list Z * XyoObject) :=
  let n := Z.of_nat (length steps) in
  Fulfilled (steps ++ [n], Blob 2 10 [n]).

(** A peer that answers the first message with a transfer and says
    nothing to a message sent without waiting. *)
Definition pipe (peerDisconnects : XyoBoundWitnessInteraction.Await → bool)
    : XyoBoundWitnessInteraction.XyoNetworkPipe := {|
  XyoBoundWitnessInteraction.send := fun message awaitResponse =>
    match awaitResponse with
    | Some false => Fulfilled None
    | _ => Fulfilled (Some [0; 0; 0; 5; 7]%Z)
    end;
  XyoBoundWitnessInteraction.close := Fulfilled ();
  XyoBoundWitnessInteraction.peerDisconnects := peerDisconnects
|}.

Definition interaction (peerDisconnects : XyoBoundWitnessInteraction.Await → bool)
    : XyoBoundWitnessInteraction.t (XyoObject := XyoObject) (XyoSigner := ())
        (XyoPayload := ()) := {|
  XyoBoundWitnessInteraction.xyoPacker := packer;
  XyoBoundWitnessInteraction.networkPipe := pipe peerDisconnects;
  XyoBoundWitnessInteraction.signers := [];
  XyoBoundWitnessInteraction.payload := ()
|}.

Definition run (peerDisconnects : XyoBoundWitnessInteraction.Await → bool)
    : XyoBoundWitnessInteraction.Run (ZigZag := list Z) :=
  XyoBoundWitnessInteraction.run major minor (fun _ _ _ => [])
    incomingData (Blob 2 1) "XyoBoundWitnessTransfer" 1 self
    (interaction peerDisconnects).

Definition neverDisconnects (a : XyoBoundWitnessInteraction.Await) : bool := false.

Definition disconnectsAt (a b : XyoBoundWitnessInteraction.Await) : bool :=
  match a, b with
  | XyoBoundWitnessInteraction.AwaitStartBoundWitness,
    XyoBoundWitnessInteraction.AwaitStartBoundWitness
  | XyoBoundWitnessInteraction.AwaitTransfer1,
    XyoBoundWitnessInteraction.AwaitTransfer1
  | XyoBoundWitnessInteraction.AwaitSend1,
    XyoBoundWitnessInteraction.AwaitSend1
  | XyoBoundWitnessInteraction.AwaitTransfer2,
    XyoBoundWitnessInteraction.AwaitTransfer2
  | XyoBoundWitnessInteraction.AwaitSend2,
    XyoBoundWitnessInteraction.AwaitSend2
  | XyoBoundWitnessInteraction.AwaitClose,
    XyoBoundWitnessInteraction.AwaitClose => true
  | _, _ => false
  end.

(** Blocks for the verifier.  Public keys and signatures are numbers,
    a signature is valid when it is the key plus one; the hash of a
    block is the bytes of the numbers it holds. *)
Definition hash (algorithm : ()) (block : OriginChainVerifier.BoundWitness Z Z ())
    : Buffer.t :=
  mjoin (OriginChainVerifier.public_keys block)
  ++ mjoin (OriginChainVerifier.signatures block)
  ++ match OriginChainVerifier.chainIndexOf
             (OriginChainVerifier.signedOf 0 block) with
     | Some i => [Z.of_N i]
     | None => []
     end.

Definition verifySignature (key : Z) (data : Buffer.t) (signature : Z) : bool :=
  bool_decide (signature = key + 1)%Z.

Definition signing_data (block : OriginChainVerifier.BoundWitness Z Z ()) : Buffer.t :=
  mjoin (OriginChainVerifier.public_keys block).

Definition payloadOf (items : list (OriginChainVerifier.Heuristic Z ()))
    : OriginChainVerifier.Payload Z () :=
  {| OriginChainVerifier.signed_heuristics := items;
     OriginChainVerifier.unsigned_heuristics := [] |}.

(** Two blocks of the chain of participant 0, the second linked to the
    first. *)
Definition block1 : OriginChainVerifier.BoundWitness Z Z () := {|
  OriginChainVerifier.public_keys := [[10]; [20]]%Z;
  OriginChainVerifier.payloads :=
    [payloadOf [OriginChainVerifier.ChainIndex 0];
     payloadOf [OriginChainVerifier.ChainIndex 0]];
  OriginChainVerifier.signatures := [[11]; [21]]%Z
|}.

Definition block2 : OriginChainVerifier.BoundWitness Z Z () := {|
  OriginChainVerifier.public_keys := [[30]; [40]]%Z;
  OriginChainVerifier.payloads :=
    [payloadOf [OriginChainVerifier.ChainIndex 1;
                OriginChainVerifier.PreviousHash
                  {| OriginChainVerifier.algorithm := ();
                     OriginChainVerifier.digest := hash () block1 |}];
     payloadOf [OriginChainVerifier.ChainIndex 0]];
  OriginChainVerifier.signatures := [[31]; [41]]%Z
|}.

(** The first block with nothing signed by the second participant. *)
Definition blockWithoutIndex : OriginChainVerifier.BoundWitness Z Z () := {|
  OriginChainVerifier.public_keys := [[10]; [20]]%Z;
  OriginChainVerifier.payloads :=
    [payloadOf [OriginChainVerifier.ChainIndex 0]; payloadOf []];
  OriginChainVerifier.signatures := [[11]; [21]]%Z
|}.

Definition verify (blocks : list (OriginChainVerifier.BoundWitness Z Z ()))
    : OriginChainVerifier.Report :=
  OriginChainVerifier.verify hash verifySignature signing_data 0 blocks.

End Sample.

(** ** The packer, by name ([xyo-packer.ts], [getMajor], [getMinor],
       [getMajorMinor]) *)

Module XyoPackerNames.
Section Names.
Context {XyoObject : Type}.
Abbreviation Serializer := (XYOSerializer.t XyoObject).

(** [serializer.description] where [getSerializerByName] has returned
    [undefined] is a [TypeError]. *)
Definition descriptionOf (serializer : option Serializer)
    : Result XYOSerializer.Description :=
  match serializer with
  | Some serializer => Ok (XYOSerializer.description serializer)
  | None => Throw TypeError
  end.

Definition getMajor (this : XyoPacker.t XyoObject) (name : string) : Result Z :=
  serializer ← XyoPacker.getSerializerByName this name;
  description ← descriptionOf serializer;
  Ok (XYOSerializer.major description).

Definition getMinor (this : XyoPacker.t XyoObject) (name : string) : Result Z :=
  serializer ← XyoPacker.getSerializerByName this name;
  description ← descriptionOf serializer;
  Ok (XYOSerializer.minor description).

Definition getMajorMinor (this : XyoPacker.t XyoObject) (name : string)
    : Result XYOSerializer.Description :=
  serializer ← XyoPacker.getSerializerByName this name;
  description ← descriptionOf serializer;
  Ok {| XYOSerializer.major := XYOSerializer.major description;
        XYOSerializer.minor := XYOSerializer.minor description |}.

(** The serializer the index by name holds for [name]: the one
    registered last under it, if any; none under ["__proto__"], which
    the index cannot hold. *)
Definition latestNamed (registrations : list (string * Serializer)) (name : string)
    : option Serializer :=
  if decide (name = "__proto__") then None
  else snd <$> last (filter (fun r => r.1 = name) registrations).

End Names.
End XyoPackerNames.

(** ** The TCP pipe, receiving ([xyo-tcp-network-pipe.ts],
       [onSendOnDataFn])

    [send] installs on the socket the ['data'] listener that
    [onSendOnDataFn] returns; the listener gathers the chunks of one
    message and settles the promise of [send]. *)

Module XyoTcpReceiver.

(** [buf.readUInt32BE(offset)]; reading past the end is a
    [RangeError]. *)
Definition readUInt32BE (buf : Buffer.t) (offset : nat) : Result Z :=
  match drop offset buf with
  | b0 :: b1 :: b2 :: b3 :: _ =>
    Ok (((b0 * 256 + b1) * 256 + b2) * 256 + b3)%Z
  | _ => Throw RangeError
  end.

(** The two variables the listener closes over. *)
Record Closure : Type := {
  data : option Buffer.t;
  sizeOfPayload : option Z
}.

Definition fresh : Closure := {| data := None; sizeOfPayload := None |}.

(** What a call of the listener does besides updating its variables. *)
Inductive Action : Type :=
  | SocketEnd
  | Reject (reason : Exception)
  | RemoveListener
  | Resolve (message : Buffer.t)
  | Raise (err : Exception).

(** The second half of the listener: append the chunk and, when the
    announced size is reached, remove the listener and resolve. *)
Definition gather (closure : Closure) (chunk : Buffer.t) : Closure * list Action :=
  let data' := Buffer.concat [default [] (data closure); chunk] in
  let closure' := {| data := Some data'; sizeOfPayload := sizeOfPayload closure |} in
  if decide (sizeOfPayload closure = Some (Z.of_nat (length data')))
  then (closure', [RemoveListener; Resolve (Buffer.slice data' 4)])
  else (closure', []).

Definition onSendOnData (closure : Closure) (chunk : Buffer.t)
    : Closure * list Action :=
  match data closure with
  | None =>
    if decide (length chunk < 4)
    then (closure, [SocketEnd; Reject (XyoError ERR_CRITICAL)])
    else
      match readUInt32BE chunk 0 with
      | Ok size => gather {| data := None; sizeOfPayload := Some size |} chunk
      | Throw e => (closure, [Raise e])
      end
  | Some _ => gather closure chunk
  end.

(** The receiving side of one [send]: the listener's variables,
    whether the listener is still installed, what the promise of
    [send] has settled to ([Forever] while it is pending) and whether
    the socket was ended. *)
Record Receiving : Type := {
  closure : Closure;
  installed : bool;
  promise : Settled Buffer.t;
  ended : bool
}.

Definition waiting : Receiving :=
  {| closure := fresh; installed := true; promise := Forever; ended := false |}.

(** A promise settles once: later calls of [resolve] and [reject]
    have no effect. *)
Definition settle (p new : Settled Buffer.t) : Settled Buffer.t :=
  match p with
  | Forever => new
  | _ => p
  end.

Definition act (r : Receiving) (a : Action) : Receiving :=
  match a with
  | SocketEnd =>
    {| closure := closure r; installed := installed r;
       promise := promise r; ended := true |}
  | Reject reason =>
    {| closure := closure r; installed := installed r;
       promise := settle (promise r) (Rejected reason); ended := ended r |}
  | RemoveListener =>
    {| closure := closure r; installed := false;
       promise := promise r; ended := ended r |}
  | Resolve message =>
    {| closure := closure r; installed := installed r;
       promise := settle (promise r) (Fulfilled message); ended := ended r |}
  | Raise _ => r
  end.

(** The socket emits ['data'] with a chunk: the listener runs if it is
    still installed. *)
Definition onData (r : Receiving) (chunk : Buffer.t) : Receiving :=
  if installed r then
    let '(closure', actions) := onSendOnData (closure r) chunk in
    foldl act
      {| closure := closure'; installed := installed r;
         promise := promise r; ended := ended r |}
      actions
  else r.

Definition receive (chunks : list Buffer.t) : Receiving :=
  foldl onData waiting chunks.

End XyoTcpReceiver.

(** ** The previous-hash serializer ([xyo-previous-hash-serializer.ts]) *)

Module XyoPreviousHashSerializer.
Section Serializer.
Context {XyoObject : Type}.
Abbreviation Serializer := (XYOSerializer.t XyoObject).
Abbreviation PackerView := (XYOSerializer.PackerView XyoObject).

(** Members of classes that are not among the sources: the
    constructor of [XyoPreviousHash], the [id] of an [XyoObject], the
    method [readSize] of a serializer, and the [sizeOfBytesToRead] the
    abstract class derives for this serializer from its description
    ([sizeOfBytesToGetSize: 2]). *)
Context (XyoPreviousHash : XyoObject → XyoObject).
Context (id : XyoObject → Buffer.t).
Context (readSizeOf : Serializer → Buffer.t → Result Z).
Context (sizeOfBytesToRead : Z).

Definition description : XYOSerializer.Description :=
  {| XYOSerializer.major := 2; XYOSerializer.minor := 6 |}.

Definition deserialize (buffer : Buffer.t) (xyoPacker : PackerView) : Result XyoObject :=
  hashCreated ← XYOSerializer.view_deserialize xyoPacker buffer;
  Ok (XyoPreviousHash hashCreated).

(** With an [id] shorter than two bytes the packer is asked for the
    type [undefined], which it does not find. *)
Definition serialize (xyoObject : XyoObject) (xyoPacker : PackerView) : Result Buffer.t :=
  match id xyoObject !! 0, id xyoObject !! 1 with
  | Some major, Some minor =>
    XYOSerializer.view_serialize xyoPacker xyoObject major minor (Some true)
  | _, _ => Throw (XyoError ERR_CREATOR_MAPPING)
  end.

Definition serializer : Serializer := {|
  XYOSerializer.description := description;
  XYOSerializer.sizeOfBytesToRead := sizeOfBytesToRead;
  XYOSerializer.serialize := serialize;
  XYOSerializer.deserialize := deserialize
|}.

(** [buf.slice(start, end)] for a [start] within the buffer: a
    negative [end] counts from the end of the buffer. *)
Definition sliceTo (buf : Buffer.t) (start : nat) (stop : Z) : Buffer.t :=
  let len := Z.of_nat (length buf) in
  let stop := if decide (stop < 0)%Z then Z.max (len + stop) 0 else Z.min stop len in
  take (Z.to_nat stop - start) (drop start buf).

(** [xyoPacker.getSerializerByMajorMinor(buffer[0], buffer[1])], the
    bytes being [undefined] past the end of the buffer: no index has
    the key [undefined]. *)
Definition getSerializerByBytes (xyoPacker : XyoPacker.t XyoObject)
    (major minor : option Z) : Result (option Serializer) :=
  match major, minor with
  | Some major, Some minor => XyoPacker.getSerializerByMajorMinor xyoPacker major minor
  | Some major, None =>
    match XyoPacker.serializerDeserializerMajorMinorIndex xyoPacker !! major with
    | Some _ => Ok None
    | None => Throw TypeError
    end
  | None, _ => Throw TypeError
  end.

Definition readSize (buffer : Buffer.t) (xyoPacker : XyoPacker.t XyoObject) : Result Z :=
  hashCreator ← getSerializerByBytes xyoPacker (buffer !! 0) (buffer !! 1);
  match hashCreator with
  | None => Throw (XyoError ERR_CREATOR_MAPPING)
  | Some hashCreator =>
    size ← readSizeOf hashCreator
             (sliceTo buffer 2 (2 + XYOSerializer.sizeOfBytesToRead hashCreator));
    Ok (size + 2)%Z
  end.

End Serializer.
End XyoPreviousHashSerializer.

(** ** More of the small instance *)

Module SampleNested.

(** A packer with the previous-hash serializer, without size prefix,
    and a hash type [(3, 5)]; a previous hash is the blob [(2, 6)] of
    the bytes of its hash. *)
Definition XyoPreviousHash (hash : Sample.XyoObject) : Sample.XyoObject :=
  Sample.Blob 2 6 (Sample.data hash).

Definition id (object : Sample.XyoObject) : Buffer.t :=
  Buffer.from [Sample.major object; Sample.minor object].

Definition sha256 : XYOSerializer.t Sample.XyoObject := Sample.blobSerializer 3 5 0.

Definition previousHash : XYOSerializer.t Sample.XyoObject :=
  XyoPreviousHashSerializer.serializer XyoPreviousHash id 0.

Definition registrations : list (string * XYOSerializer.t Sample.XyoObject) :=
  [("XyoSha256Hash", sha256); ("XyoPreviousHash", previousHash)].

Definition packer : XyoPacker.t Sample.XyoObject :=
  XyoPacker.registerAll registrations XyoPacker.new.

(** The packer of [Sample] with the transfer serializer registered
    under another name than the driver asks for. *)
Definition packerMisnamed : XyoPacker.t Sample.XyoObject :=
  XyoPacker.registerAll
    [("ByteSized", Sample.byteSized);
     ("XyoBoundWitness", Sample.boundWitness);
     ("Transfer", Sample.boundWitnessTransfer)]
    XyoPacker.new.

Definition interactionMisnamed
    : XyoBoundWitnessInteraction.t (XyoObject := Sample.XyoObject)
        (XyoSigner := ()) (XyoPayload := ()) := {|
  XyoBoundWitnessInteraction.xyoPacker := packerMisnamed;
  XyoBoundWitnessInteraction.networkPipe := Sample.pipe Sample.neverDisconnects;
  XyoBoundWitnessInteraction.signers := [];
  XyoBoundWitnessInteraction.payload := ()
|}.

End SampleNested.

(** * Proofs *)

Module BufferFacts.
Import Buffer.


Lemma concat_to_exact (list : list t) (totalLength : nat) :
  totalLength = length (List.concat list) →
  concat_to list totalLength = List.concat list.
Proof.
  intros ->. unfold concat_to. rewrite take_app_length. reflexivity.
Qed.

Lemma land_255 (v : Z) : Z.land v 255 = (v mod 256)%Z.
Proof. exact (Z.land_ones v 8 ltac:(lia)). Qed.

Lemma from_bytes (values : list Z) : bytes values → from values = values.
Proof.
  unfold from. induction 1 as [|v values Hv _ IH]; simpl; [reflexivity|].
  rewrite IH, land_255, Z.mod_small by lia. reflexivity.
Qed.

Lemma writeUInt8_alloc (value : Z) :
  (0 ≤ value ≤ 255)%Z →
  ∃ buf, (alloc 1 ≫= fun b => writeUInt8 b value 0) = Ok buf
         ∧ length buf = 1 ∧ readUIntBE buf = value ∧ bytes buf.
Proof.
  intros Hv. exists [value]. unfold writeUInt8, checkInt. simpl.
  rewrite bool_decide_eq_true_2 by lia. simpl.
  rewrite land_255, Z.mod_small by lia.
  repeat split. unfold bytes. repeat constructor; lia.
Qed.

Lemma writeUInt16BE_alloc (value : Z) :
  (0 ≤ value ≤ 65535)%Z →
  ∃ buf, (alloc 2 ≫= fun b => writeUInt16BE b value 0) = Ok buf
         ∧ length buf = 2 ∧ readUIntBE buf = value ∧ bytes buf.
Proof.
  intros Hv. eexists. unfold writeUInt16BE, checkInt. simpl.
  rewrite bool_decide_eq_true_2 by lia. simpl.
  split; [reflexivity|]. split; [reflexivity|].
  rewrite !land_255, !Z.shiftr_div_pow2 by lia.
  split.
  - unfold readUIntBE. simpl. change (2 ^ 8)%Z with 256%Z.
    Z.div_mod_to_equations. lia.
  - unfold bytes. repeat constructor; Z.div_mod_to_equations; lia.
Qed.

Lemma writeUInt32BE_alloc (value : Z) :
  (0 ≤ value ≤ 4294967295)%Z →
  ∃ buf, (alloc 4 ≫= fun b => writeUInt32BE b value 0) = Ok buf
         ∧ length buf = 4 ∧ readUIntBE buf = value ∧ bytes buf.
Proof.
  intros Hv. eexists. unfold writeUInt32BE, checkInt. simpl.
  rewrite bool_decide_eq_true_2 by lia. simpl.
  split; [reflexivity|]. split; [reflexivity|].
  rewrite !land_255, !Z.shiftr_div_pow2 by lia.
  split.
  - unfold readUIntBE. simpl.
    change (2 ^ 8)%Z with 256%Z. change (2 ^ 16)%Z with 65536%Z.
    change (2 ^ 24)%Z with 16777216%Z.
    Z.div_mod_to_equations. lia.
  - unfold bytes. repeat constructor; Z.div_mod_to_equations; lia.
Qed.

End BufferFacts.

Module PackerFacts.
Import XyoPacker.

Section Facts.
Context {XyoObject : Type}.
Abbreviation Serializer := (XYOSerializer.t XyoObject).
Abbreviation PackerView := (XYOSerializer.PackerView XyoObject).
Implicit Types (this : t XyoObject) (s : Serializer) (self : PackerView).

Lemma latest_snoc (registered : list Serializer) s major minor :
  latest (registered ++ [s]) major minor
  = if decide (hasType major minor s) then Some s else latest registered major minor.
Proof.
  unfold latest. rewrite filter_app.
  destruct (decide (hasType major minor s)) as [H|H].
  - rewrite (filter_cons_True _ _ _ H). simpl. apply last_snoc.
  - rewrite (filter_cons_False _ _ _ H). simpl. rewrite app_nil_r. reflexivity.
Qed.

Lemma majorRegistered_snoc (registered : list Serializer) s major :
  majorRegistered (registered ++ [s]) major
  ↔ hasMajor major s ∨ majorRegistered registered major.
Proof.
  unfold majorRegistered. rewrite Exists_app, Exists_cons, Exists_nil. tauto.
Qed.

Lemma collection_register name s this :
  serializerDeserializersCollection (registerSerializerDeserializer name s this)
  = serializerDeserializersCollection this ++ [s].
Proof. reflexivity. Qed.

Lemma majorIndex_register name s this major :
  is_Some (serializerDeserializerMajorMinorIndex
             (registerSerializerDeserializer name s this) !! major)
  ↔ hasMajor major s
    ∨ is_Some (serializerDeserializerMajorMinorIndex this !! major).
Proof.
  unfold registerSerializerDeserializer, hasMajor. simpl.
  set (M := XYOSerializer.major (XYOSerializer.description s)).
  destruct (decide (M = major)) as [->|Hne].
  - rewrite lookup_insert_eq. split; [left; reflexivity | eauto].
  - rewrite !lookup_insert_ne by done. tauto.
Qed.

Lemma lookupIndex_register name s this major minor :
  lookupIndex (registerSerializerDeserializer name s this) major minor
  = if decide (hasType major minor s)
    then Some (length (serializerDeserializersCollection this))
    else lookupIndex this major minor.
Proof.
  unfold lookupIndex, registerSerializerDeserializer, hasType. simpl.
  set (M := XYOSerializer.major (XYOSerializer.description s)).
  set (m := XYOSerializer.minor (XYOSerializer.description s)).
  rewrite length_app. simpl.
  replace (length (serializerDeserializersCollection this) + 1 - 1)
    with (length (serializerDeserializersCollection this)) by lia.
  destruct (decide (M = major)) as [<-|HM].
  - rewrite !lookup_insert_eq. simpl.
    destruct (decide (m = minor)) as [<-|Hm].
    + rewrite lookup_insert_eq. rewrite decide_True by done. reflexivity.
    + rewrite lookup_insert_ne by done. rewrite decide_False by tauto.
      destruct (serializerDeserializerMajorMinorIndex this !! M); reflexivity.
  - rewrite !lookup_insert_ne by done. rewrite decide_False by tauto. reflexivity.
Qed.

Lemma consistent_new : consistent (@new XyoObject).
Proof.
  split.
  - intros major. simpl. rewrite lookup_empty. unfold majorRegistered.
    rewrite Exists_nil. split; [intros [? [=]] | tauto].
  - intros major minor. unfold lookupIndex. simpl. rewrite lookup_empty. reflexivity.
Qed.

Lemma consistent_register name s this :
  consistent this → consistent (registerSerializerDeserializer name s this).
Proof.
  intros [Hmajor Hindex]. split.
  - intros major. rewrite majorIndex_register, collection_register,
      majorRegistered_snoc, Hmajor. reflexivity.
  - intros major minor. specialize (Hindex major minor).
    rewrite lookupIndex_register, collection_register, latest_snoc, length_app.
    simpl. destruct (decide (hasType major minor s)) as [H|H].
    + split; [lia|]. apply list_lookup_middle. reflexivity.
    + destruct (lookupIndex this major minor) as [index|]; [|exact Hindex].
      destruct Hindex as [Hlt Hlook]. split; [lia|].
      rewrite lookup_app_l by exact Hlt. exact Hlook.
Qed.

Lemma consistent_registerAll (registrations : list (string * Serializer)) this :
  consistent this → consistent (registerAll registrations this).
Proof.
  revert this. induction registrations as [|[name s] registrations IH];
    intros this Hthis; simpl; [exact Hthis|].
  apply IH, consistent_register, Hthis.
Qed.

Lemma collection_registerAll (registrations : list (string * Serializer)) this :
  serializerDeserializersCollection (registerAll registrations this)
  = serializerDeserializersCollection this ++ registrations.*2.
Proof.
  unfold registerAll. revert this.
  induction registrations as [|[name s] registrations IH]; intros this.
  - simpl. rewrite app_nil_r. reflexivity.
  - cbn [foldl fmap list_fmap]. rewrite IH, collection_register, <- app_assoc.
    reflexivity.
Qed.

(** On a consistent packer the guarded lookup that [serialize],
    [deserialize] and [getSerializerByMajorMinor] spell out in full
    finds the serializer registered last. *)
Lemma lookup_latest this major minor :
  consistent this →
  match serializerDeserializerMajorMinorIndex this !! major with
  | Some minors =>
    match minors !! minor with
    | Some index =>
      index < length (serializerDeserializersCollection this)
      ∧ serializerDeserializersCollection this !! index
        = latest (serializerDeserializersCollection this) major minor
      ∧ is_Some (latest (serializerDeserializersCollection this) major minor)
    | None => latest (serializerDeserializersCollection this) major minor = None
    end
  | None => latest (serializerDeserializersCollection this) major minor = None
  end.
Proof.
  intros [_ Hindex]. specialize (Hindex major minor). unfold lookupIndex in Hindex.
  destruct (serializerDeserializerMajorMinorIndex this !! major) as [minors|];
    simpl in Hindex; [|exact Hindex].
  destruct (minors !! minor) as [index|]; [|exact Hindex].
  destruct Hindex as [Hlt Hlook]. repeat split; try assumption.
  rewrite <- Hlook. apply lookup_lt_is_Some_2, Hlt.
Qed.

(** A packer built by registrations. *)
Lemma consistent_built (registrations : list (string * Serializer)) :
  consistent (registerAll registrations new)
  ∧ serializerDeserializersCollection (registerAll registrations new)
    = registrations.*2.
Proof.
  split.
  - apply consistent_registerAll, consistent_new.
  - rewrite collection_registerAll. reflexivity.
Qed.

Lemma latest_hasType (registered : list Serializer) major minor s :
  latest registered major minor = Some s → hasType major minor s.
Proof.
  unfold latest. intros H. apply last_Some_elem_of in H.
  apply list_elem_of_filter in H. tauto.
Qed.

Lemma latest_majorRegistered (registered : list Serializer) major minor s :
  latest registered major minor = Some s → majorRegistered registered major.
Proof.
  unfold latest, majorRegistered. intros H. apply last_Some_elem_of in H.
  apply list_elem_of_filter in H. destruct H as [[Hmajor _] Hin].
  apply Exists_exists. exists s. split; [exact Hin | exact Hmajor].
Qed.

(** The three methods, by the serializer registered last. *)
Lemma serialize_latest self this object major minor typed :
  consistent this →
  serialize self this object major minor typed
  = match latest (serializerDeserializersCollection this) major minor with
    | Some serializer =>
      serialized ← XYOSerializer.serialize serializer object self;
      match typed with
      | None => Ok serialized
      | Some true => makeTyped serialized serializer
      | Some false => makeUntyped serialized serializer
      end
    | None => Throw (XyoError ERR_CREATOR_MAPPING)
    end.
Proof.
  intros Hthis. pose proof (lookup_latest this major minor Hthis) as H.
  unfold serialize, couldNotFindSerializer.
  destruct (serializerDeserializerMajorMinorIndex this !! major) as [minors|];
    [|rewrite H; reflexivity].
  destruct (minors !! minor) as [index|]; [|rewrite H; reflexivity].
  destruct H as (Hlt & Hlook & [s Hs]).
  rewrite decide_True by exact Hlt. rewrite Hlook, Hs. reflexivity.
Qed.

Lemma deserialize_latest self this buffer :
  consistent this →
  deserialize self this buffer
  = match buffer with
    | major :: minor :: rest =>
      match latest (serializerDeserializersCollection this) major minor with
      | Some serializer => XYOSerializer.deserialize serializer rest self
      | None => Throw (XyoError ERR_CREATOR_MAPPING)
      end
    | _ => Throw (XyoError ERR_CREATOR_MAPPING)
    end.
Proof.
  intros Hthis. unfold deserialize, couldNotFindSerializer.
  destruct buffer as [|major [|minor rest]]; try reflexivity.
  rewrite decide_False by (simpl; lia).
  change ((major :: minor :: rest) !! 0) with (Some major).
  change ((major :: minor :: rest) !! 1) with (Some minor).
  change (Buffer.slice (major :: minor :: rest) 2) with rest.
  cbv iota beta.
  pose proof (lookup_latest this major minor Hthis) as H.
  destruct (serializerDeserializerMajorMinorIndex this !! major) as [minors|];
    [|rewrite H; reflexivity].
  destruct (minors !! minor) as [index|]; [|rewrite H; reflexivity].
  destruct H as (Hlt & Hlook & [s Hs]).
  rewrite decide_True by exact Hlt. rewrite Hlook, Hs. reflexivity.
Qed.

Lemma getSerializerByMajorMinor_latest this major minor :
  consistent this →
  getSerializerByMajorMinor this major minor
  = match latest (serializerDeserializersCollection this) major minor with
    | Some serializer => Ok (Some serializer)
    | None =>
      if decide (majorRegistered (serializerDeserializersCollection this) major)
      then Ok None
      else Throw TypeError
    end.
Proof.
  intros Hthis. pose proof (lookup_latest this major minor Hthis) as H.
  pose proof (consistent_major this Hthis major) as Hmajor.
  unfold getSerializerByMajorMinor.
  destruct (serializerDeserializerMajorMinorIndex this !! major) as [minors|].
  - assert (majorRegistered (serializerDeserializersCollection this) major)
      as Hreg by (apply Hmajor; eauto).
    destruct (minors !! minor) as [index|].
    + destruct H as (Hlt & Hlook & [s Hs]).
      rewrite decide_True by exact Hlt. rewrite Hlook, Hs. reflexivity.
    + rewrite H, decide_True by exact Hreg. reflexivity.
  - rewrite H. rewrite decide_False; [reflexivity|].
    intros Hreg. apply Hmajor in Hreg. destruct Hreg as [? [=]].
Qed.

(** The size prefix. *)
Lemma encodedSize_zero (sizeOfData : Z) s :
  XYOSerializer.sizeOfBytesToRead s = 0%Z → encodedSize sizeOfData s = Ok [].
Proof. intros H. unfold encodedSize. rewrite H. reflexivity. Qed.

Lemma encodedSize_fits (sizeOfData : Z) s :
  let w := XYOSerializer.sizeOfBytesToRead s in
  (w = 1 ∨ w = 2 ∨ w = 4)%Z →
  (0 ≤ sizeOfData)%Z →
  (sizeOfData + w < 2 ^ (8 * w))%Z →
  ∃ sizePrefix,
    encodedSize sizeOfData s = Ok sizePrefix
    ∧ Z.of_nat (length sizePrefix) = w
    ∧ Buffer.readUIntBE sizePrefix = (sizeOfData + w)%Z
    ∧ Buffer.bytes sizePrefix.
Proof.
  intros w Hw Hsize Hfits. unfold encodedSize. fold w.
  destruct Hw as [Hw|[Hw|Hw]]; rewrite Hw in *; simpl decide; cbv iota.
  - destruct (BufferFacts.writeUInt8_alloc (sizeOfData + 1))
      as (b & Hb & Hlen & Hval & Hbytes); [simpl in Hfits; lia|].
    exists b. rewrite Hlen. auto.
  - destruct (BufferFacts.writeUInt16BE_alloc (sizeOfData + 2))
      as (b & Hb & Hlen & Hval & Hbytes); [simpl in Hfits; lia|].
    exists b. rewrite Hlen. auto.
  - destruct (BufferFacts.writeUInt32BE_alloc (sizeOfData + 4))
      as (b & Hb & Hlen & Hval & Hbytes); [simpl in Hfits; lia|].
    exists b. rewrite Hlen. auto.
Qed.

Lemma id_bytes s major minor :
  hasType major minor s → (0 ≤ major < 256)%Z → (0 ≤ minor < 256)%Z →
  XYOSerializer.id s = [major; minor].
Proof.
  intros [<- <-] Hmajor Hminor. unfold XYOSerializer.id.
  apply BufferFacts.from_bytes. repeat constructor; lia.
Qed.

Lemma makeUntyped_eq (data : Buffer.t) s :
  makeUntyped data s
  = sizePrefix ← encodedSize (Z.of_nat (length data)) s; Ok (sizePrefix ++ data).
Proof.
  unfold makeUntyped.
  destruct (encodedSize (Z.of_nat (length data)) s) as [sizePrefix|]; [|reflexivity].
  cbv [mbind Result_bind bind]. f_equal.
  rewrite BufferFacts.concat_to_exact.
  - simpl. rewrite app_nil_r. reflexivity.
  - simpl. rewrite !length_app. simpl. lia.
Qed.

Lemma makeTyped_eq (data : Buffer.t) s :
  makeTyped data s
  = sizePrefix ← encodedSize (Z.of_nat (length data)) s;
    Ok (XYOSerializer.id s ++ sizePrefix ++ data).
Proof.
  unfold makeTyped.
  destruct (encodedSize (Z.of_nat (length data)) s) as [sizePrefix|]; [|reflexivity].
  cbv [mbind Result_bind bind]. f_equal.
  rewrite BufferFacts.concat_to_exact.
  - simpl. rewrite app_nil_r. reflexivity.
  - simpl. rewrite !length_app. simpl. lia.
Qed.

Lemma lookup_snoc2_first {A : Type} (l : list A) (a b : A) :
  (l ++ [a; b]) !! length l = Some a.
Proof. apply list_lookup_middle. reflexivity. Qed.

Lemma lookup_snoc2_second {A : Type} (l : list A) (a b : A) :
  (l ++ [a; b]) !! (length l + 1) = Some b.
Proof.
  rewrite lookup_app_r by lia.
  replace (length l + 1 - length l) with 1 by lia. reflexivity.
Qed.

Lemma throws_Throw {A : Type} (e : Exception) : throws (@Throw A e).
Proof. exists e. reflexivity. Qed.

Lemma throws_Ok {A : Type} (a : A) : ¬ throws (Ok a).
Proof. intros [e [=]]. Qed.

(** C6 (as amended).  On a packer built by registrations, for a
    registered type [(major, minor)] of byte values whose serializer
    has size-prefix width [w] and turns the object into [payload]:
    if [w] is 1, 2 or 4 and [w + |payload|] fits [w] bytes, typed
    framing is the byte [major], the byte [minor], a [w]-byte
    big-endian prefix of value [w + |payload|], then [payload];
    untyped framing is the same without the two type bytes; with
    [w = 0] there is no prefix. *)
Theorem serialize_framing self (registrations : list (string * Serializer))
    (object : XyoObject) major minor s (payload : Buffer.t) :
  let this := registerAll registrations new in
  let w := XYOSerializer.sizeOfBytesToRead s in
  latest registrations.*2 major minor = Some s →
  (0 ≤ major < 256)%Z → (0 ≤ minor < 256)%Z →
  XYOSerializer.serialize s object self = Ok payload →
  (w = 0 ∨ ((w = 1 ∨ w = 2 ∨ w = 4)
            ∧ w + Z.of_nat (length payload) < 2 ^ (8 * w)))%Z →
  ∃ sizePrefix : Buffer.t,
    Z.of_nat (length sizePrefix) = w
    ∧ Buffer.bytes sizePrefix
    ∧ (w ≠ 0%Z → Buffer.readUIntBE sizePrefix = (w + Z.of_nat (length payload))%Z)
    ∧ serialize self this object major minor (Some true)
      = Ok ([major; minor] ++ sizePrefix ++ payload)
    ∧ serialize self this object major minor (Some false)
      = Ok (sizePrefix ++ payload).
Proof.
  intros this w Hs Hmajor Hminor Hpayload Hw.
  destruct (consistent_built registrations) as [Hthis Hcoll]. fold this in Hthis, Hcoll.
  assert (∃ sizePrefix : Buffer.t,
             encodedSize (Z.of_nat (length payload)) s = Ok sizePrefix
             ∧ Z.of_nat (length sizePrefix) = w
             ∧ Buffer.bytes sizePrefix
             ∧ (w ≠ 0%Z →
                Buffer.readUIntBE sizePrefix = (w + Z.of_nat (length payload))%Z))
    as (sizePrefix & Henc & Hlen & Hbytes & Hval).
  { destruct Hw as [Hw|[Hw Hfits]].
    - exists []. rewrite encodedSize_zero by exact Hw. fold w. rewrite Hw.
      repeat split; [constructor | tauto].
    - destruct (encodedSize_fits (Z.of_nat (length payload)) s)
        as (p & Hp & Hl & Hv & Hb); [exact Hw | lia | fold w; lia |].
      exists p. fold w in Hl, Hv. repeat split; try assumption. intros _. lia. }
  exists sizePrefix. repeat split; try assumption.
  - rewrite serialize_latest, Hcoll, Hs, Hpayload by exact Hthis.
    cbv [mbind Result_bind bind]. rewrite makeTyped_eq, Henc.
    rewrite (id_bytes s major minor) by eauto using latest_hasType. reflexivity.
  - rewrite serialize_latest, Hcoll, Hs, Hpayload by exact Hthis.
    cbv [mbind Result_bind bind]. rewrite makeUntyped_eq, Henc. reflexivity.
Qed.

(** C1 (as amended).  On a packer built by registrations, for a
    registered type [(major, minor)] of byte values and an object
    whose length-prefixed serialization exists (the size fits the
    prefix) and is read back to the object by the serializer's own
    [deserialize]: deserializing the typed serialization yields the
    object. *)
Theorem serialize_deserialize_roundtrip self
    (registrations : list (string * Serializer))
    (object : XyoObject) major minor s (payload framed : Buffer.t) :
  let this := registerAll registrations new in
  latest registrations.*2 major minor = Some s →
  (0 ≤ major < 256)%Z → (0 ≤ minor < 256)%Z →
  XYOSerializer.serialize s object self = Ok payload →
  makeUntyped payload s = Ok framed →
  XYOSerializer.deserialize s framed self = Ok object →
  serialize self this object major minor (Some true) ≫= deserialize self this
  = Ok object.
Proof.
  intros this Hs Hmajor Hminor Hpayload Hframed Hback.
  destruct (consistent_built registrations) as [Hthis Hcoll]. fold this in Hthis, Hcoll.
  rewrite serialize_latest, Hcoll, Hs, Hpayload by exact Hthis.
  rewrite makeUntyped_eq in Hframed.
  cbv [mbind Result_bind bind] in *. rewrite makeTyped_eq.
  cbv [mbind Result_bind bind].
  destruct (encodedSize (Z.of_nat (length payload)) s) as [sizePrefix|];
    [|discriminate].
  injection Hframed as <-.
  rewrite (id_bytes s major minor) by eauto using latest_hasType.
  rewrite deserialize_latest by exact Hthis. simpl.
  rewrite Hcoll, Hs. exact Hback.
Qed.

(** C4 (as amended).  Registering a second serializer under a
    [(major, minor)] that is already taken does not fail: both
    serializers are kept in the collection, and the index by
    [(major, minor)] now leads to the second one; by name, the second
    is found under its name and the first under its own when the
    names differ, for every name but ["__proto__"], which the index
    by name cannot hold. *)
Theorem register_duplicate_replaces (this : t XyoObject)
    (name1 name2 : string) s1 s2 major minor :
  let this' := registerSerializerDeserializer name2 s2
                 (registerSerializerDeserializer name1 s1 this) in
  hasType major minor s1 →
  hasType major minor s2 →
  serializerDeserializersCollection this'
  = serializerDeserializersCollection this ++ [s1; s2]
  ∧ getSerializerByMajorMinor this' major minor = Ok (Some s2)
  ∧ (name2 ≠ "__proto__" → getSerializerByName this' name2 = Ok (Some s2))
  ∧ (name1 ≠ name2 → name1 ≠ "__proto__" →
     getSerializerByName this' name1 = Ok (Some s1)).
Proof.
  intros this' [H1M H1m] [H2M H2m].
  assert (serializerDeserializersCollection this'
          = serializerDeserializersCollection this ++ [s1; s2]) as Hcoll.
  { unfold this'. rewrite !collection_register, <- app_assoc. reflexivity. }
  assert (length (serializerDeserializersCollection this')
          = S (S (length (serializerDeserializersCollection this)))) as Hlen.
  { rewrite Hcoll, length_app. simpl. lia. }
  split; [exact Hcoll|]. split; [|split].
  - pose proof (lookupIndex_register name2 s2
                  (registerSerializerDeserializer name1 s1 this) major minor) as H.
    fold this' in H. rewrite decide_True in H by (split; assumption).
    rewrite collection_register, length_app in H. simpl in H.
    unfold lookupIndex in H. unfold getSerializerByMajorMinor.
    destruct (serializerDeserializerMajorMinorIndex this' !! major) as [minors|];
      [|discriminate]. simpl in H. rewrite H.
    rewrite decide_True by lia. rewrite Hcoll. f_equal.
    apply lookup_snoc2_second.
  - intros Hproto. unfold getSerializerByName, getProperty.
    replace (serializerDeserializersByNameIndex this' !! name2)
      with (Some (length (serializerDeserializersCollection this) + 1)).
    2:{ unfold this', registerSerializerDeserializer, setProperty. simpl.
        rewrite (decide_False (P := name2 = "__proto__")) by exact Hproto.
        rewrite lookup_insert_eq, !length_app. simpl. f_equal. lia. }
    rewrite decide_False by lia. rewrite Hcoll, lookup_snoc2_second. reflexivity.
  - intros Hne Hproto. unfold getSerializerByName, getProperty.
    replace (serializerDeserializersByNameIndex this' !! name1)
      with (Some (length (serializerDeserializersCollection this))).
    2:{ unfold this', registerSerializerDeserializer, setProperty. simpl.
        rewrite (decide_False (P := name1 = "__proto__")) by exact Hproto.
        destruct (decide (name2 = "__proto__")).
        - rewrite lookup_insert_eq, !length_app. simpl. f_equal. lia.
        - rewrite lookup_insert_ne by congruence.
          rewrite lookup_insert_eq, !length_app. simpl. f_equal. lia. }
    rewrite decide_False by lia. rewrite Hcoll, lookup_snoc2_first. reflexivity.
Qed.

(** C5.  [deserialize] fails on a buffer shorter than two bytes;
    otherwise it reads the first two bytes as [(major, minor)] and
    hands the remaining bytes to the serializer registered for them,
    whose result is its result; it fails with the creator-mapping
    error when none is registered.  So it fails exactly when the
    buffer is too short, the type is unknown, or the serializer
    rejects the remaining bytes. *)
Theorem deserialize_dispatch self (registrations : list (string * Serializer))
    (buffer : Buffer.t) :
  let this := registerAll registrations new in
  deserialize self this buffer
  = match buffer with
    | major :: minor :: rest =>
      match latest registrations.*2 major minor with
      | Some serializer => XYOSerializer.deserialize serializer rest self
      | None => Throw (XyoError ERR_CREATOR_MAPPING)
      end
    | _ => Throw (XyoError ERR_CREATOR_MAPPING)
    end
  ∧ (throws (deserialize self this buffer)
     ↔ length buffer < 2
       ∨ (∃ major minor rest,
             buffer = major :: minor :: rest
             ∧ latest registrations.*2 major minor = None)
       ∨ (∃ major minor rest serializer,
             buffer = major :: minor :: rest
             ∧ latest registrations.*2 major minor = Some serializer
             ∧ throws (XYOSerializer.deserialize serializer rest self))).
Proof.
  intros this.
  destruct (consistent_built registrations) as [Hthis Hcoll]. fold this in Hthis, Hcoll.
  rewrite deserialize_latest, Hcoll by exact Hthis. split; [reflexivity|].
  destruct buffer as [|major [|minor rest]].
  - split; [intros _; left; simpl; lia | intros _; apply throws_Throw].
  - split; [intros _; left; simpl; lia | intros _; apply throws_Throw].
  - destruct (latest registrations.*2 major minor) as [serializer|] eqn:Hs.
    + split.
      * intros H. right. right. exists major, minor, rest, serializer. auto.
      * intros [H|[(M & m & r & [= -> -> ->] & H)
                  |(M & m & r & s' & [= -> -> ->] & Hs' & H)]].
        -- simpl in H. lia.
        -- congruence.
        -- congruence.
    + split; [|intros _; apply throws_Throw].
      intros _. right. left. exists major, minor, rest. auto.
Qed.

(** C10.  On a packer built by registrations,
    [getSerializerByMajorMinor] returns the serializer registered
    (last) under [(major, minor)] when there is one, returns
    [undefined] when only other minors of [major] were registered,
    and throws a [TypeError] when no serializer of that [major] was
    ever registered. *)
Theorem getSerializerByMajorMinor_cases
    (registrations : list (string * Serializer)) (major minor : Z) :
  getSerializerByMajorMinor (registerAll registrations new) major minor
  = match latest registrations.*2 major minor with
    | Some serializer => Ok (Some serializer)
    | None =>
      if decide (majorRegistered registrations.*2 major)
      then Ok None
      else Throw TypeError
    end.
Proof.
  destruct (consistent_built registrations) as [Hthis Hcoll].
  rewrite getSerializerByMajorMinor_latest, Hcoll by exact Hthis. reflexivity.
Qed.

End Facts.

End PackerFacts.

Module PackerExamples.
Import XyoPacker PackerFacts.

(** C6, at the sample packer: the one-byte-prefixed type [(8, 1)] and
    a two-byte payload. *)
Lemma serialize_framing_witness :
  ∃ sizePrefix : Buffer.t,
    Z.of_nat (length sizePrefix) = 1%Z
    ∧ Buffer.bytes sizePrefix
    ∧ (1%Z ≠ 0%Z → Buffer.readUIntBE sizePrefix = (1 + 2)%Z)
    ∧ serialize Sample.self Sample.packer (Sample.Blob 8 1 [3; 4]%Z) 8 1 (Some true)
      = Ok ([8; 1]%Z ++ sizePrefix ++ [3; 4]%Z)
    ∧ serialize Sample.self Sample.packer (Sample.Blob 8 1 [3; 4]%Z) 8 1 (Some false)
      = Ok (sizePrefix ++ [3; 4]%Z).
Proof.
  apply (serialize_framing Sample.self Sample.registrations
           (Sample.Blob 8 1 [3; 4]%Z) 8 1 Sample.byteSized [3; 4]%Z).
  - vm_compute. reflexivity.
  - lia.
  - lia.
  - reflexivity.
  - right. split; [left; reflexivity | vm_compute; reflexivity].
Defined.

(** C6 as stated fails for a payload the prefix cannot count: with
    width 1 and 255 bytes of payload the length [256] does not fit one
    byte and [serialize] throws a [RangeError]. *)
Lemma serialize_framing_counterexample :
  let payload : Buffer.t := replicate 255 0%Z in
  let object := Sample.Blob 8 1 payload in
  latest Sample.registrations.*2 8 1 = Some Sample.byteSized
  ∧ XYOSerializer.sizeOfBytesToRead Sample.byteSized = 1%Z
  ∧ XYOSerializer.serialize Sample.byteSized object Sample.self = Ok payload
  ∧ serialize Sample.self Sample.packer object 8 1 (Some true) = Throw RangeError
  ∧ ¬ (∃ sizePrefix : Buffer.t,
          serialize Sample.self Sample.packer object 8 1 (Some true)
          = Ok ([8; 1]%Z ++ sizePrefix ++ payload)).
Proof.
  intros payload object.
  assert (serialize Sample.self Sample.packer object 8 1 (Some true)
          = Throw RangeError) as H by (vm_compute; reflexivity).
  split; [vm_compute; reflexivity|].
  split; [reflexivity|]. split; [reflexivity|]. split; [exact H|].
  intros [sizePrefix Hp]. rewrite H in Hp. discriminate.
Qed.

(** C1, at the sample packer. *)
Lemma serialize_deserialize_roundtrip_witness :
  serialize Sample.self Sample.packer (Sample.Blob 8 1 [3; 4]%Z) 8 1 (Some true)
    ≫= deserialize Sample.self Sample.packer
  = Ok (Sample.Blob 8 1 [3; 4]%Z).
Proof.
  apply (serialize_deserialize_roundtrip Sample.self Sample.registrations
           (Sample.Blob 8 1 [3; 4]%Z) 8 1 Sample.byteSized
           [3; 4]%Z [3; 3; 4]%Z).
  - vm_compute. reflexivity.
  - lia.
  - lia.
  - reflexivity.
  - vm_compute. reflexivity.
  - vm_compute. reflexivity.
Defined.

(** C1 as stated fails for a registered value whose typed
    serialization does not exist: 255 bytes under a one-byte size
    prefix. *)
Lemma serialize_deserialize_roundtrip_counterexample :
  let object := Sample.Blob 8 1 (replicate 255 0%Z) in
  latest Sample.registrations.*2 8 1 = Some Sample.byteSized
  ∧ serialize Sample.self Sample.packer object 8 1 (Some true)
      ≫= deserialize Sample.self Sample.packer
    ≠ Ok object.
Proof.
  intros object. split; [vm_compute; reflexivity|].
  assert (serialize Sample.self Sample.packer object 8 1 (Some true)
            ≫= deserialize Sample.self Sample.packer
          = Throw RangeError) as H by (vm_compute; reflexivity).
  rewrite H. discriminate.
Qed.

(** C4, at two serializers of the type [(8, 1)]. *)
Lemma register_duplicate_replaces_witness :
  let this' := registerSerializerDeserializer "Second" Sample.shortSized
                 (registerSerializerDeserializer "First" Sample.byteSized new) in
  serializerDeserializersCollection this'
  = serializerDeserializersCollection new ++ [Sample.byteSized; Sample.shortSized]
  ∧ getSerializerByMajorMinor this' 8 1 = Ok (Some Sample.shortSized)
  ∧ ("Second" ≠ "__proto__" →
     getSerializerByName this' "Second" = Ok (Some Sample.shortSized))
  ∧ ("First" ≠ "Second" → "First" ≠ "__proto__" →
     getSerializerByName this' "First" = Ok (Some Sample.byteSized)).
Proof.
  apply (register_duplicate_replaces new "First" "Second"
           Sample.byteSized Sample.shortSized 8 1).
  - split; reflexivity.
  - split; reflexivity.
Defined.

(** C4 as stated fails: the second registration under [(8, 1)] is not
    rejected, and it is the second serializer, not the first, that
    the packer then finds for [(8, 1)]. *)
Lemma register_duplicate_counterexample :
  let this' := registerSerializerDeserializer "Second" Sample.shortSized
                 (registerSerializerDeserializer "First" Sample.byteSized new) in
  hasType 8 1 Sample.byteSized
  ∧ hasType 8 1 Sample.shortSized
  ∧ getSerializerByMajorMinor this' 8 1 = Ok (Some Sample.shortSized)
  ∧ getSerializerByMajorMinor this' 8 1 ≠ Ok (Some Sample.byteSized).
Proof.
  intros this'.
  assert (getSerializerByMajorMinor this' 8 1 = Ok (Some Sample.shortSized)) as H
    by (vm_compute; reflexivity).
  split; [split; reflexivity|]. split; [split; reflexivity|].
  split; [exact H|].
  rewrite H. intros Heq.
  apply (f_equal (fun r => match r with
                           | Ok (Some s) => XYOSerializer.sizeOfBytesToRead s
                           | _ => 0%Z
                           end)) in Heq.
  simpl in Heq. lia.
Qed.

End PackerExamples.

(** ** The TCP pipe *)

Module TcpPipeFacts.
Import XyoTcpNetworkPipe.

(** C7 (as amended).  For every message buffer [b] whose length plus
    four fits the four-byte field ([|b| + 4 <= 2^32 - 1]),
    [padBufferWithSize] returns a four-byte big-endian field of value
    [|b| + 4] followed by [b], and that is what [send] writes to the
    socket. *)
Theorem send_length_framing (b : Buffer.t) :
  (Z.of_nat (length b) + 4 ≤ 4294967295)%Z →
  ∃ sizeField : Buffer.t,
    length sizeField = 4
    ∧ Buffer.bytes sizeField
    ∧ Buffer.readUIntBE sizeField = (Z.of_nat (length b) + 4)%Z
    ∧ padBufferWithSize b = Ok (sizeField ++ b)
    ∧ ∀ socket awaitResponse,
        ∃ socket' promise,
          send socket b awaitResponse = Ok (socket', promise)
          ∧ written socket' = written socket ++ [sizeField ++ b].
Proof.
  intros Hlen.
  destruct (BufferFacts.writeUInt32BE_alloc (Z.of_nat (length b) + 4))
    as (sizeField & Hwrite & Hfour & Hvalue & Hbytes); [lia|].
  assert (padBufferWithSize b = Ok (sizeField ++ b)) as Hpad.
  { unfold padBufferWithSize. cbv [mbind Result_bind bind] in *.
    destruct (Buffer.alloc 4) as [buffer|]; [|discriminate].
    rewrite Hwrite. unfold Buffer.concat. simpl. rewrite app_nil_r. reflexivity. }
  exists sizeField. repeat split; try assumption.
  intros socket awaitResponse. unfold send. rewrite Hpad.
  cbv [mbind Result_bind bind].
  destruct awaitResponse as [[|]|]; eexists _, _; split; reflexivity.
Qed.

Lemma send_length_framing_witness :
  ∃ sizeField : Buffer.t,
    length sizeField = 4
    ∧ Buffer.bytes sizeField
    ∧ Buffer.readUIntBE sizeField = (Z.of_nat (length [7; 9]%Z) + 4)%Z
    ∧ padBufferWithSize [7; 9]%Z = Ok (sizeField ++ [7; 9]%Z)
    ∧ ∀ socket awaitResponse,
        ∃ socket' promise,
          send socket [7; 9]%Z awaitResponse = Ok (socket', promise)
          ∧ written socket' = written socket ++ [sizeField ++ [7; 9]%Z].
Proof.
  apply (send_length_framing [7; 9]%Z). simpl. lia.
Defined.

(** C7 as stated fails for a message of [2^32 - 4] bytes: its length
    plus four does not fit the four-byte field, [padBufferWithSize]
    throws a [RangeError] and [send] writes nothing. *)
Lemma send_length_framing_counterexample :
  let b : Buffer.t := replicate (Z.to_nat 4294967292) 0%Z in
  padBufferWithSize b = Throw RangeError
  ∧ ∀ socket awaitResponse, send socket b awaitResponse = Throw RangeError.
Proof.
  intros b.
  assert (padBufferWithSize b = Throw RangeError) as Hpad.
  { unfold padBufferWithSize, b.
    replace (Buffer.alloc 4) with (Ok (A:=Buffer.t) [0; 0; 0; 0]%Z) by reflexivity.
    cbv [mbind Result_bind bind]. unfold Buffer.writeUInt32BE, Buffer.checkInt.
    rewrite length_replicate, Z2Nat.id by lia.
    rewrite bool_decide_eq_false_2 by lia. reflexivity. }
  split; [exact Hpad|]. intros socket awaitResponse.
  unfold send. rewrite Hpad. reflexivity.
Qed.

End TcpPipeFacts.

(** ** The interaction driver *)

Module InteractionFacts.
Import XyoBoundWitnessInteraction.

Section Facts.
Context {XyoObject XyoSigner XyoPayload ZigZag : Type}.
Context (major minor : XyoObject → Z).
Context (XyoZigZagBoundWitness :
           XyoPacker.t XyoObject → list XyoSigner → XyoPayload → ZigZag).
Context (incomingData :
           ZigZag → option XyoObject → bool → Settled (ZigZag * XyoObject)).
Context (asObject : ZigZag → XyoObject).
Context (XyoBoundWitnessTransfer_name : string).
Context (BOUND_WITNESS : Z).

Abbreviation driver :=
  (run major minor XyoZigZagBoundWitness incomingData asObject
     XyoBoundWitnessTransfer_name BOUND_WITNESS).

Lemma catalogueMessage_header (bytes message : Buffer.t) :
  catalogueMessage BOUND_WITNESS bytes = Ok message →
  ∃ catalogue : Buffer.t,
    length catalogue = 4
    ∧ Buffer.bytes catalogue
    ∧ Buffer.readUIntBE catalogue = BOUND_WITNESS
    ∧ message = [4%Z] ++ catalogue ++ bytes.
Proof.
  unfold catalogueMessage. intros H.
  destruct (decide (0 ≤ BOUND_WITNESS ≤ 4294967295)%Z) as [Hin|Hout].
  - destruct (BufferFacts.writeUInt32BE_alloc BOUND_WITNESS Hin)
      as (catalogue & Hwrite & Hlen & Hvalue & Hbytes).
    exists catalogue. repeat split; try assumption.
    cbv [mbind Result_bind bind] in *.
    change (Buffer.alloc XYO_TCP_CATALOGUE_LENGTH_IN_BYTES) with (Buffer.alloc 4) in H.
    destruct (Buffer.alloc 4) as [buffer|]; [|discriminate].
    rewrite Hwrite in H.
    change (Ok (Buffer.concat [[4%Z]; catalogue; bytes]) = Ok message) in H.
    injection H as <-. unfold Buffer.concat. simpl. rewrite app_nil_r. reflexivity.
  - exfalso. cbv [mbind Result_bind bind] in H.
    destruct (Buffer.alloc XYO_TCP_CATALOGUE_LENGTH_IN_BYTES) as [buffer|];
      [|discriminate].
    unfold Buffer.writeUInt32BE, Buffer.checkInt in H.
    rewrite bool_decide_eq_false_2 in H by exact Hout. discriminate.
Qed.

(** Case analysis on the steps [run] takes, in program order. *)
Ltac steps :=
  unfold run, await, orThrow; cbn [negb orb fst snd];
  repeat match goal with
         | |- context [match ?x with _ => _ end] =>
           lazymatch x with
           | context [match _ with _ => _ end] => fail
           | _ => let E := fresh "Estep" in
                  destruct x eqn:E; cbn [negb orb fst snd]
           end
         end.

(** C8.  Whatever the run, the messages [run] sends are at most two.
    The first is one byte holding 4, the four-byte big-endian
    catalogue item [BOUND_WITNESS], then the untyped serialization of
    the first transfer; it is sent awaiting the response.  The second,
    if any, is exactly the untyped serialization of the transfer the
    assembler returns for the response, with nothing in front; it is
    sent without awaiting a response.  A run that is fulfilled has
    sent both. *)
Theorem catalogue_header_on_first_message_only self this :
  let outcome := (driver self this).1 in
  let trace := (driver self this).2 in
  (sent trace = []
   ∨ ∃ boundWitness1 transfer1 bytes1 (catalogue : Buffer.t),
       incomingData (startBoundWitness XyoZigZagBoundWitness this) None false
       = Fulfilled (boundWitness1, transfer1)
       ∧ XyoPacker.serialize self (xyoPacker this) transfer1
           (major transfer1) (minor transfer1) (Some false) = Ok bytes1
       ∧ length catalogue = 4
       ∧ Buffer.bytes catalogue
       ∧ Buffer.readUIntBE catalogue = BOUND_WITNESS
       ∧ (sent trace = [([4%Z] ++ catalogue ++ bytes1, None)]
          ∨ ∃ transferObj boundWitness2 transfer3 bytes3,
              incomingData boundWitness1 (Some transferObj) false
              = Fulfilled (boundWitness2, transfer3)
              ∧ XyoPacker.serialize self (xyoPacker this) transfer3
                  (major transfer3) (minor transfer3) (Some false) = Ok bytes3
              ∧ sent trace = [([4%Z] ++ catalogue ++ bytes1, None);
                              (bytes3, Some false)]))
  ∧ (∀ boundWitness, outcome = Fulfilled boundWitness → length (sent trace) = 2).
Proof.
  cbv zeta. steps;
    try (split; [left; reflexivity | intros ?; discriminate]).
  all: match goal with
       | H : catalogueMessage _ _ = Ok _ |- _ =>
         apply catalogueMessage_header in H;
         destruct H as (catalogue & Hlen & Hbytes & Hvalue & ->)
       end.
  all: split; [right | first [intros ?; discriminate | intros ? _; reflexivity]].
  all: eexists _, _, _, catalogue.
  all: split; [reflexivity|]; split; [eassumption|].
  all: split; [exact Hlen|]; split; [exact Hbytes|]; split; [exact Hvalue|].
  all: first [left; reflexivity | right; eexists _, _, _, _;
              split; [eassumption|]; split; [eassumption|]; reflexivity].
Qed.

Ltac flags :=
  repeat match goal with
         | H : context [peerDisconnects ?p ?a] |- _ =>
           destruct (peerDisconnects p a)
         | |- context [peerDisconnects ?p ?a] =>
           destruct (peerDisconnects p a)
         end;
  cbn [negb orb] in *.

(** How a run can end. *)
Lemma run_outcome self this :
  match (driver self this).1 with
  | Fulfilled _ => observed (networkPipe this) = false
  | Rejected reason =>
    reason = peerDisconnected ∧ observed (networkPipe this) = true
  | Forever => True
  end.
Proof.
  unfold observed. steps; flags; try discriminate; auto.
Qed.

(** A run whose steps all succeed. *)
Lemma run_undisturbed self this boundWitness :
  (driver self (undisturbed this)).1 = Fulfilled boundWitness →
  (driver self this).1
  = if observed (networkPipe this) then Rejected peerDisconnected
    else Fulfilled boundWitness.
Proof.
  unfold run, undisturbed, startBoundWitness, observed.
  cbn [xyoPacker networkPipe send close peerDisconnects signers payload].
  steps; try discriminate; flags; try discriminate; auto.
Qed.

Lemma run_observed_sends self this :
  observed (networkPipe this) = true → length (sent (driver self this).2) ≤ 1.
Proof.
  unfold observed. steps; flags; try discriminate; intros _; simpl; lia.
Qed.

(** C9 (as amended).  The flag the disconnect listener sets is read
    before each send and never after the second one.  A run is
    fulfilled with a block only if the listener has not run before the
    flag is read for the last time; a run that is rejected is rejected
    with the peer-disconnected error, and only if the listener has run
    by then.  Conversely, following the run step by step, with only
    the steps it has executed supposed to succeed: if the listener
    runs while the assembler is created, the run is rejected at once
    and has sent nothing; if it runs during the first assembler step,
    the run is rejected and has sent nothing; if it runs while the
    response is awaited or during the second assembler step, the run
    is rejected having sent the first message only; in each case the
    listener is not removed and the pipe is not closed.  Otherwise,
    the remaining steps succeeding, the run sends the second message,
    removes the listener, closes the pipe and is fulfilled with the
    block, whether or not the listener runs during the second send. *)
Theorem run_rejects_on_observed_disconnect self this :
  let pipe := networkPipe this in
  let packer := xyoPacker this in
  let hears := peerDisconnects pipe in
  let serialized object framing :=
    XyoPacker.serialize self packer object (major object) (minor object)
      (Some framing) in
  match (driver self this).1 with
  | Fulfilled _ => observed pipe = false
  | Rejected reason => reason = peerDisconnected ∧ observed pipe = true
  | Forever => True
  end
  ∧ (hears AwaitStartBoundWitness = true →
     driver self this = (Rejected peerDisconnected, []))
  ∧ (∀ boundWitness1 transfer1 logged1 bytes1 first,
        hears AwaitStartBoundWitness = false →
        incomingData (startBoundWitness XyoZigZagBoundWitness this) None false
        = Fulfilled (boundWitness1, transfer1) →
        serialized (asObject boundWitness1) true = Ok logged1 →
        serialized transfer1 false = Ok bytes1 →
        catalogueMessage BOUND_WITNESS bytes1 = Ok first →
        (hears AwaitTransfer1 = true →
         driver self this = (Rejected peerDisconnected, []))
        ∧ (∀ response serializer transferObj boundWitness2 transfer3 logged2,
              hears AwaitTransfer1 = false →
              send pipe first None = Fulfilled (Some response) →
              XyoPacker.getSerializerByName packer XyoBoundWitnessTransfer_name
              = Ok (Some serializer) →
              XYOSerializer.deserialize serializer response self = Ok transferObj →
              incomingData boundWitness1 (Some transferObj) false
              = Fulfilled (boundWitness2, transfer3) →
              serialized (asObject boundWitness2) true = Ok logged2 →
              (hears AwaitSend1 || hears AwaitTransfer2 = true →
               driver self this = (Rejected peerDisconnected, [Sent first None]))
              ∧ (∀ bytes3 reply,
                    hears AwaitSend1 || hears AwaitTransfer2 = false →
                    serialized transfer3 false = Ok bytes3 →
                    send pipe bytes3 (Some false) = Fulfilled reply →
                    close pipe = Fulfilled () →
                    driver self this
                    = (Fulfilled boundWitness2,
                       [Sent first None; Sent bytes3 (Some false);
                        Unregistered; Closed])))).
Proof.
  cbv zeta. split; [apply run_outcome|]. split.
  { intros Hstart. unfold run. rewrite Hstart. reflexivity. }
  intros boundWitness1 transfer1 logged1 bytes1 first
    Hstart Hstep1 Hlog1 Hbytes1 Hfirst.
  split.
  { intros Hheard. unfold run, await, orThrow.
    rewrite Hstart, Hheard, Hstep1, Hlog1, Hbytes1, Hfirst. reflexivity. }
  intros response serializer transferObj boundWitness2 transfer3 logged2
    Hquiet1 Hsend1 Hname Hdecode Hstep2 Hlog2.
  split.
  { intros Hheard. unfold run, await, orThrow.
    rewrite Hstart, Hquiet1, Hstep1, Hlog1, Hbytes1, Hfirst. cbn [negb orb].
    rewrite Hsend1, Hname, Hdecode, Hstep2, Hlog2, Hheard. reflexivity. }
  intros bytes3 reply Hquiet2 Hbytes3 Hsend2 Hclose.
  unfold run, await, orThrow.
  rewrite Hstart, Hquiet1, Hstep1, Hlog1, Hbytes1, Hfirst. cbn [negb orb].
  rewrite Hsend1, Hname, Hdecode, Hstep2, Hlog2, Hquiet2. cbn [negb].
  rewrite Hbytes3, Hsend2, Hclose. reflexivity.
Qed.

End Facts.
End InteractionFacts.

Module InteractionExamples.
Import XyoBoundWitnessInteraction InteractionFacts.

(** C8, at the sample peer: the two messages of a quiet run. *)
Lemma catalogue_header_on_first_message_only_witness :
  (∀ boundWitness,
      (Sample.run Sample.neverDisconnects).1 = Fulfilled boundWitness →
      length (sent (Sample.run Sample.neverDisconnects).2) = 2)
  ∧ (Sample.run Sample.neverDisconnects).1 = Fulfilled [0; 1]%Z
  ∧ sent (Sample.run Sample.neverDisconnects).2
    = [([4; 0; 0; 0; 1; 0; 0; 0; 5; 0]%Z, None);
       ([0; 0; 0; 5; 1]%Z, Some false)].
Proof.
  split.
  - exact (proj2 (catalogue_header_on_first_message_only
                    Sample.major Sample.minor (fun _ _ _ => [])
                    Sample.incomingData (Sample.Blob 2 1)
                    "XyoBoundWitnessTransfer" 1 Sample.self
                    (Sample.interaction Sample.neverDisconnects))).
  - split; vm_compute; reflexivity.
Defined.

(** C9, at the sample peer: a disconnect while the response is
    awaited rejects the run, the first message sent and the pipe left
    open. *)
Lemma run_rejects_on_observed_disconnect_witness :
  Sample.run (Sample.disconnectsAt AwaitSend1)
  = (Rejected peerDisconnected,
     [Sent [4; 0; 0; 0; 1; 0; 0; 0; 5; 0]%Z None]).
Proof.
  refine (proj1 (proj2 (proj2 (proj2
            (run_rejects_on_observed_disconnect
               Sample.major Sample.minor (fun _ _ _ => [])
               Sample.incomingData (Sample.Blob 2 1)
               "XyoBoundWitnessTransfer" 1 Sample.self
               (Sample.interaction (Sample.disconnectsAt AwaitSend1))))
            [0%Z] (Sample.Blob 2 10 [0%Z]) [2; 1; 0; 0; 0; 5; 0]%Z
            [0; 0; 0; 5; 0]%Z [4; 0; 0; 0; 1; 0; 0; 0; 5; 0]%Z
            _ _ _ _ _)
            [0; 0; 0; 5; 7]%Z Sample.boundWitnessTransfer
            (Sample.Blob 2 10 [7%Z]) [0; 1]%Z (Sample.Blob 2 10 [1%Z])
            [2; 1; 0; 0; 0; 6; 0; 1]%Z
            _ _ _ _ _ _) _);
    vm_compute; reflexivity.
Defined.

(** C9 as stated fails: the listener runs while the second send is
    awaited, and the run is fulfilled with the block. *)
Lemma run_rejects_on_disconnect_counterexample :
  peerDisconnects (Sample.pipe (Sample.disconnectsAt AwaitSend2)) AwaitSend2 = true
  ∧ (Sample.run (Sample.disconnectsAt AwaitSend2)).1 = Fulfilled [0; 1]%Z
  ∧ (Sample.run (Sample.disconnectsAt AwaitSend2)).1 ≠ Rejected peerDisconnected.
Proof.
  assert ((Sample.run (Sample.disconnectsAt AwaitSend2)).1 = Fulfilled [0; 1]%Z)
    as H by (vm_compute; reflexivity).
  split; [reflexivity|]. split; [exact H|]. rewrite H. discriminate.
Qed.

End InteractionExamples.

(** ** The origin-chain repository *)

Module RepositoryFacts.
Import OriginChainRepository.

Section Facts.
Context {Hash Signer PublicKey : Type}.
Implicit Types (st : State Hash Signer PublicKey) (c : Call Hash).

Lemma read_keeps_state (r : Read) st : (call (DoRead r) st).1 = st.
Proof. reflexivity. Qed.




End Facts.
End RepositoryFacts.

Module RepositoryExamples.
Import OriginChainRepository RepositoryFacts.



(** Two signers queued on the new repository: the update moves the
    first of them to the current signers. *)
Example update_rotates_waiting_signer :
  let st : State nat nat nat := add_signer 7 (add_signer 5 genesis) in
  let st' := update_origin_chain_state 1 st in
  current_signers st' = [5] ∧ waiting_signers st' = [7]
  ∧ index st' = 1%Z ∧ previous_hash st' = Some 1.
Proof. repeat split. Qed.

End RepositoryExamples.

(** ** The origin-chain verifier *)

Module VerifierFacts.
Import OriginChainVerifier.

Section Facts.
Context {PublicKey Signature HashAlgorithm : Type}.
Context `{!EqDecision PublicKey}.
Context (hash : HashAlgorithm → BoundWitness PublicKey Signature HashAlgorithm
                → Buffer.t).
Context (verifySignature : PublicKey → Buffer.t → Signature → bool).
Context (signing_data : BoundWitness PublicKey Signature HashAlgorithm → Buffer.t).

Abbreviation Block := (BoundWitness PublicKey Signature HashAlgorithm).
Abbreviation check := (checkBlock hash verifySignature signing_data).
Abbreviation verifier := (verify hash verifySignature signing_data).

(** Every participant signs a chain index, position by position. *)
Lemma everyoneSignsIndex_lookup (block : Block) :
  everyoneSignsIndex block = true
  ↔ ∀ j payload, payloads block !! j = Some payload →
      is_Some (chainIndexOf (signed_heuristics payload)).
Proof.
  unfold everyoneSignsIndex, signsIndex.
  induction (payloads block) as [|first rest IH]; cbn [forallb].
  - split; [intros _ j payload Hj; discriminate | reflexivity].
  - rewrite andb_true_iff, IH. split.
    + intros [Hfirst Hrest] [|j] payload Hj.
      * injection Hj as <-.
        destruct (chainIndexOf (signed_heuristics first)); [eauto | discriminate].
      * exact (Hrest j payload Hj).
    + intros H. split.
      * destruct (H 0 first eq_refl) as [i ->]. reflexivity.
      * intros j payload Hj. exact (H (S j) payload Hj).
Qed.

(** What a block that passes the checks satisfies. *)
Lemma checkBlock_passes (P k : nat) (previous : option Block) (block : Block) :
  check P k previous block = None
  ↔ invariantsHold block = true
    ∧ everyoneSignsIndex block = true
    ∧ chainIndexOf (signedOf P block) = Some (N.of_nat k)
    ∧ (∀ before, previous = Some before →
         ∃ h, previousHashOf (signedOf P block) = Some h
              ∧ digest h = hash (algorithm h) before)
    ∧ (∀ before p, previous = Some before →
         nextPublicKeyOf (signedOf P before) = Some p → p ∈ keysOf P block)
    ∧ signaturesVerify verifySignature (signing_data block)
        (public_keys block) (signatures block) = true.
Proof.
  unfold checkBlock. split.
  - intros H.
    destruct (invariantsHold block); [|discriminate]. cbn [negb] in H.
    destruct (everyoneSignsIndex block); [|discriminate]. cbn [negb] in H.
    destruct (bool_decide_reflect
                (chainIndexOf (signedOf P block) = Some (N.of_nat k)))
      as [Hindex|]; [|discriminate]. cbn [negb] in H.
    split; [reflexivity|]. split; [reflexivity|]. split; [exact Hindex|].
    destruct previous as [before|].
    + destruct (previousHashOf (signedOf P block)) as [h|]; [|discriminate].
      destruct (bool_decide_reflect (digest h = hash (algorithm h) before))
        as [Hhash|]; [|discriminate]. cbn [negb] in H.
      split; [intros ? [= <-]; eauto|].
      destruct (nextPublicKeyOf (signedOf P before)) as [p|] eqn:Hnext.
      * destruct (bool_decide_reflect (p ∈ keysOf P block)) as [Hkey|];
          [|discriminate]. cbn [negb] in H.
        split; [intros ? ? [= <-] Hp; rewrite Hnext in Hp;
                injection Hp as <-; exact Hkey|].
        destruct (signaturesVerify _ _ _ _); [reflexivity | discriminate].
      * cbn [negb] in H.
        split; [intros ? ? [= <-] Hp; rewrite Hnext in Hp; discriminate|].
        destruct (signaturesVerify _ _ _ _); [reflexivity | discriminate].
    + cbn [negb] in H. split; [intros ? [=]|]. split; [intros ? ? [=]|].
      destruct (signaturesVerify _ _ _ _); [reflexivity | discriminate].
  - intros (-> & -> & Hindex & Hhash & Hkey & ->). cbn [negb].
    rewrite bool_decide_eq_true_2 by exact Hindex. cbn [negb].
    destruct previous as [before|]; [|reflexivity].
    destruct (Hhash before eq_refl) as (h & -> & Hh).
    rewrite bool_decide_eq_true_2 by exact Hh. cbn [negb].
    destruct (nextPublicKeyOf (signedOf P before)) as [p|] eqn:Hp; [|reflexivity].
    rewrite bool_decide_eq_true_2 by (eapply Hkey; eauto). reflexivity.
Qed.

(** A block that is well formed and in which one participant signs no
    chain index fails the checks with [ChainLinkageInvalid], at every
    position and for the chain of every participant. *)
Lemma checkBlock_missing_index (P k : nat) (previous : option Block) (block : Block)
    (j : nat) (payload : Payload PublicKey HashAlgorithm) :
  invariantsHold block = true →
  payloads block !! j = Some payload →
  chainIndexOf (signed_heuristics payload) = None →
  check P k previous block = Some ChainLinkageInvalid.
Proof.
  intros Hinv Hj Hnone. unfold checkBlock. rewrite Hinv. cbn [negb].
  destruct (everyoneSignsIndex block) eqn:Hall; [|reflexivity].
  rewrite everyoneSignsIndex_lookup in Hall.
  destruct (Hall j payload Hj) as [i Hi]. congruence.
Qed.

(** An accepted list of blocks: every block passes the checks at its
    position, against the block before it. *)
Lemma verifyFrom_valid (P k : nat) (previous : option Block) (blocks : list Block) :
  is_valid (verifyFrom hash verifySignature signing_data P k previous blocks) = true →
  ∀ j block,
    blocks !! j = Some block →
    check P (k + j)
      (match j with O => previous | S j' => blocks !! j' end) block = None.
Proof.
  revert k previous. induction blocks as [|first blocks IH];
    intros k previous Hvalid j block Hj; [discriminate|].
  cbn [verifyFrom] in Hvalid.
  destruct (check P k previous first) as [kind|] eqn:Hfirst; [discriminate|].
  destruct j as [|j].
  - injection Hj as <-. rewrite Nat.add_0_r. exact Hfirst.
  - cbn in Hj. specialize (IH (S k) (Some first) Hvalid j block Hj).
    replace (k + S j) with (S k + j) by lia.
    destruct j as [|j']; exact IH.
Qed.

(** C2.  In a list of blocks the verifier accepts for the chain of
    participant [P], the chain index [P] signs in block [k] is the one
    it signs in block 0 plus [k], and for [k >= 1] block [k] carries a
    previous hash that is byte-equal to the hash of block [k - 1];
    every participant of every block signs a chain index.  Two
    sequential blocks are accepted in their order and rejected in the
    opposite order, at the first block, for its chain index. *)
Theorem verify_accepts_only_linked_chains (P : nat) :
  (∀ blocks : list Block,
      is_valid (verifier P blocks) = true →
      (∀ k first block,
          blocks !! 0 = Some first → blocks !! k = Some block →
          ∃ i0 ik,
            chainIndexOf (signedOf P first) = Some i0
            ∧ chainIndexOf (signedOf P block) = Some ik
            ∧ ik = (i0 + N.of_nat k)%N)
      ∧ (∀ k before block,
            blocks !! k = Some before → blocks !! (S k) = Some block →
            ∃ h, previousHashOf (signedOf P block) = Some h
                 ∧ digest h = hash (algorithm h) before)
      ∧ (∀ k block j payload,
            blocks !! k = Some block → payloads block !! j = Some payload →
            is_Some (chainIndexOf (signed_heuristics payload))))
  ∧ (∀ B1 B2 : Block,
        sequential hash verifySignature signing_data P B1 B2 →
        verifier P [B1; B2] = valid
        ∧ verifier P [B2; B1] = invalid 0 ChainLinkageInvalid).
Proof.
  split.
  - intros blocks Hvalid. unfold verify in Hvalid.
    pose proof (verifyFrom_valid P 0 None blocks Hvalid) as Hall.
    split; [|split].
    + intros k first block Hfirst Hblock.
      apply Hall in Hfirst. apply Hall in Hblock.
      apply checkBlock_passes in Hfirst, Hblock.
      destruct Hfirst as (_ & _ & H0 & _). destruct Hblock as (_ & _ & Hk & _).
      exists (N.of_nat 0), (N.of_nat k).
      split; [exact H0|]. split; [exact Hk|]. lia.
    + intros k before block Hbefore Hblock.
      apply Hall in Hblock. cbn [Nat.add] in Hblock.
      apply checkBlock_passes in Hblock.
      destruct Hblock as (_ & _ & _ & Hhash & _). apply Hhash. exact Hbefore.
    + intros k block j payload Hblock Hj.
      apply Hall in Hblock. apply checkBlock_passes in Hblock.
      destruct Hblock as (_ & Hsign & _).
      rewrite everyoneSignsIndex_lookup in Hsign. eapply Hsign, Hj.
  - intros B1 B2
      ((Hinv1 & Hall1 & Hsig1) & (Hinv2 & Hall2 & Hsig2) & Hi1 & Hi2 & Hhash & Hkey).
    split.
    + unfold verify. cbn [verifyFrom].
      replace (check P 0 None B1) with (@None ErrorKind).
      2:{ symmetry. apply checkBlock_passes.
          split; [exact Hinv1|]. split; [exact Hall1|]. split; [exact Hi1|].
          split; [intros ? [=]|]. split; [intros ? ? [=] | exact Hsig1]. }
      replace (check P 1 (Some B1) B2) with (@None ErrorKind); [reflexivity|].
      symmetry. apply checkBlock_passes.
      split; [exact Hinv2|]. split; [exact Hall2|]. split; [exact Hi2|].
      split; [intros ? [= <-]; exact Hhash|].
      split; [intros ? ? [= <-]; apply Hkey | exact Hsig2].
    + unfold verify. cbn [verifyFrom]. unfold checkBlock.
      rewrite Hinv2, Hall2, Hi2. reflexivity.
Qed.

End Facts.
End VerifierFacts.

Module VerifierExamples.
Import OriginChainVerifier VerifierFacts.

(** C2, at the sample chain of participant 0. *)
Lemma verify_accepts_only_linked_chains_witness :
  (∃ h, previousHashOf (signedOf 0 Sample.block2) = Some h
        ∧ digest h = Sample.hash (algorithm h) Sample.block1)
  ∧ Sample.verify [Sample.block1; Sample.block2] = valid
  ∧ Sample.verify [Sample.block2; Sample.block1] = invalid 0 ChainLinkageInvalid.
Proof.
  split.
  { assert (is_valid (Sample.verify [Sample.block1; Sample.block2]) = true)
      as Hvalid by (vm_compute; reflexivity).
    destruct (proj1 (verify_accepts_only_linked_chains
                       Sample.hash Sample.verifySignature
                       Sample.signing_data 0) _ Hvalid) as (_ & Hhash & _).
    apply (Hhash 0 Sample.block1 Sample.block2); reflexivity. }
  apply (proj2 (verify_accepts_only_linked_chains
                  Sample.hash Sample.verifySignature Sample.signing_data 0)).
  unfold sequential, sound.
  split; [split; [|split]; vm_compute; reflexivity|].
  split; [split; [|split]; vm_compute; reflexivity|].
  split; [reflexivity|]. split; [reflexivity|].
  split.
  - eexists. split; reflexivity.
  - intros p Hp. vm_compute in Hp. discriminate.
Defined.

(** The block in which the second participant signs nothing is
    rejected on the chain of the first, and on that of the second. *)
Example verify_rejects_missing_index :
  Sample.verify [Sample.blockWithoutIndex] = invalid 0 ChainLinkageInvalid
  ∧ verify Sample.hash Sample.verifySignature Sample.signing_data 1
      [Sample.blockWithoutIndex] = invalid 0 ChainLinkageInvalid.
Proof. split; vm_compute; reflexivity. Qed.

(** A block alone is accepted when every participant signs index 0,
    and two blocks whose second declares index 2 are rejected at
    position 1. *)
Example verify_single_and_wrong_index :
  Sample.verify [Sample.block1] = valid
  ∧ Sample.verify
      [Sample.block1;
       {| public_keys := [[30]; [40]]%Z;
          payloads :=
            [Sample.payloadOf
               [ChainIndex 2;
                PreviousHash {| algorithm := ();
                                digest := Sample.hash () Sample.block1 |}];
             Sample.payloadOf [ChainIndex 0]];
          signatures := [[31]; [41]]%Z |}]
    = invalid 1 ChainLinkageInvalid.
Proof. split; vm_compute; reflexivity. Qed.

End VerifierExamples.

(** ** More on the packer *)

Module PackerMoreFacts.
Import XyoPacker PackerFacts XyoPackerNames.

Section Facts.
Context {XyoObject : Type}.
Abbreviation Serializer := (XYOSerializer.t XyoObject).
Abbreviation PackerView := (XYOSerializer.PackerView XyoObject).
Implicit Types (this : t XyoObject) (s : Serializer) (self : PackerView).

Lemma registerAll_snoc (registrations : list (string * Serializer)) name s this :
  registerAll (registrations ++ [(name, s)]) this
  = registerSerializerDeserializer name s (registerAll registrations this).
Proof. unfold registerAll. rewrite foldl_app. reflexivity. Qed.

Lemma byName_register name s this (name' : string) :
  serializerDeserializersByNameIndex (registerSerializerDeserializer name s this)
    !! name'
  = if decide (name = name' ∧ name' ≠ "__proto__")
    then Some (length (serializerDeserializersCollection this))
    else serializerDeserializersByNameIndex this !! name'.
Proof.
  unfold registerSerializerDeserializer, setProperty. simpl. rewrite length_app. simpl.
  replace (length (serializerDeserializersCollection this) + 1 - 1)
    with (length (serializerDeserializersCollection this)) by lia.
  destruct (decide (name = "__proto__")) as [Hproto|Hproto].
  - rewrite decide_False; [reflexivity|]. intros [<- H]. contradiction.
  - destruct (decide (name = name')) as [<-|Hne].
    + rewrite decide_True by tauto. apply lookup_insert_eq.
    + rewrite decide_False by tauto. apply lookup_insert_ne. exact Hne.
Qed.

Lemma latestNamed_snoc (registrations : list (string * Serializer)) name s
    (name' : string) :
  latestNamed (registrations ++ [(name, s)]) name'
  = if decide (name = name' ∧ name' ≠ "__proto__")
    then Some s else latestNamed registrations name'.
Proof.
  unfold latestNamed.
  destruct (decide (name' = "__proto__")) as [Hproto|Hproto].
  - rewrite decide_False by tauto. reflexivity.
  - rewrite filter_app.
    destruct (decide (name = name')) as [H|H].
    + rewrite decide_True by tauto.
      rewrite (filter_cons_True (fun r : string * Serializer => r.1 = name'))
        by exact H.
      rewrite filter_nil, last_snoc. reflexivity.
    + rewrite decide_False by tauto.
      rewrite (filter_cons_False (fun r : string * Serializer => r.1 = name'))
        by exact H.
      rewrite filter_nil, app_nil_r. reflexivity.
Qed.

(** The own properties of the index by name of a packer built by
    registrations. *)
Lemma byName_built (registrations : list (string * Serializer)) (name : string) :
  match serializerDeserializersByNameIndex (registerAll registrations new) !! name with
  | Some index =>
    index < length registrations
    ∧ registrations.*2 !! index = latestNamed registrations name
  | None => latestNamed registrations name = None
  end.
Proof.
  induction registrations as [|[name' s] registrations IH] using rev_ind.
  - simpl. rewrite lookup_empty. unfold latestNamed. case_decide; reflexivity.
  - rewrite registerAll_snoc, byName_register, latestNamed_snoc.
    rewrite (proj2 (consistent_built registrations)).
    rewrite length_fmap, length_app, fmap_app. simpl.
    destruct (decide (name' = name ∧ name ≠ "__proto__")) as [_|_].
    + split; [lia|]. rewrite <- (length_fmap snd registrations).
      apply list_lookup_middle. reflexivity.
    + destruct (serializerDeserializersByNameIndex
                  (registerAll registrations new) !! name) as [index|];
        [|exact IH].
      destruct IH as [Hlt Hlook]. split; [lia|].
      rewrite lookup_app_l by (rewrite length_fmap; exact Hlt). exact Hlook.
Qed.

(** What the index by name holds for a name, on a packer built by
    registrations: the position of the serializer registered last
    under it, a member of [Object.prototype], or nothing. *)
Lemma getProperty_built (registrations : list (string * Serializer)) (name : string) :
  let this := registerAll registrations new in
  match latestNamed registrations name with
  | Some serializer =>
    ∃ index,
      getProperty (serializerDeserializersByNameIndex this) name = Number index
      ∧ index < length (serializerDeserializersCollection this)
      ∧ serializerDeserializersCollection this !! index = Some serializer
  | None =>
    getProperty (serializerDeserializersByNameIndex this) name
    = if decide (name ∈ ObjectPrototype) then Inherited else Undefined
  end.
Proof.
  intros this. pose proof (byName_built registrations name) as H.
  unfold getProperty, this.
  rewrite (proj2 (consistent_built registrations)), length_fmap.
  destruct (serializerDeserializersByNameIndex
              (registerAll registrations new) !! name) as [index|].
  - destruct H as [Hlt Hlook].
    destruct (latestNamed registrations name) as [s|] eqn:Hs.
    + exists index. auto.
    + assert (is_Some (registrations.*2 !! index)) as Hsome
        by (apply lookup_lt_is_Some_2; rewrite length_fmap; exact Hlt).
      rewrite Hlook in Hsome. destruct Hsome as [? [=]].
  - rewrite H. reflexivity.
Qed.

(** X2.  On a packer built by registrations, [getSerializerByName]
    returns the serializer registered last under the name, for every
    name but ["__proto__"].  Where the index by name holds nothing
    for the name, it returns [undefined] if the name is a member of
    [Object.prototype] (["toString"], ["constructor"],
    ["__proto__"], ...) and throws the creator-mapping error
    otherwise. *)
Theorem getSerializerByName_latest
    (registrations : list (string * Serializer)) (name : string) :
  getSerializerByName (registerAll registrations new) name
  = match latestNamed registrations name with
    | Some serializer => Ok (Some serializer)
    | None =>
      if decide (name ∈ ObjectPrototype) then Ok None
      else Throw (XyoError ERR_CREATOR_MAPPING)
    end.
Proof.
  pose proof (getProperty_built registrations name) as H. cbv zeta in H.
  unfold getSerializerByName.
  destruct (latestNamed registrations name) as [s|].
  - destruct H as (index & -> & Hlt & ->).
    rewrite decide_False by lia. reflexivity.
  - rewrite H. destruct (decide (name ∈ ObjectPrototype)); reflexivity.
Qed.

Lemma latestNamed_elem (registrations : list (string * Serializer)) name s :
  latestNamed registrations name = Some s → s ∈ registrations.*2.
Proof.
  unfold latestNamed. intros H.
  destruct (decide (name = "__proto__")); [discriminate|].
  destruct (last (filter (fun r : string * Serializer => r.1 = name) registrations))
    as [[name' s']|] eqn:Hlast; [|discriminate].
  injection H as <-. apply last_Some_elem_of, list_elem_of_filter in Hlast.
  destruct Hlast as [_ Hin]. apply list_elem_of_fmap. exists (name', s'). auto.
Qed.

Lemma latest_is_Some (registered : list Serializer) s :
  s ∈ registered →
  ∃ s', latest registered (XYOSerializer.major (XYOSerializer.description s))
          (XYOSerializer.minor (XYOSerializer.description s)) = Some s'.
Proof.
  intros Hin. unfold latest.
  set (M := XYOSerializer.major (XYOSerializer.description s)).
  set (m := XYOSerializer.minor (XYOSerializer.description s)).
  assert (s ∈ filter (hasType M m) registered) as Hf.
  { apply list_elem_of_filter. split; [split; reflexivity | exact Hin]. }
  destruct (filter (hasType M m) registered) as [|x l] using rev_ind.
  - inversion Hf.
  - rewrite last_snoc. eauto.
Qed.

(** X1.  On a packer built by registrations, [serialize] for a type
    that was never registered throws the creator-mapping error in
    every framing; for a registered type the raw framing is exactly
    what the serializer returns, and an error of the serializer is the
    error of [serialize] in every framing. *)
Theorem serialize_dispatch self (registrations : list (string * Serializer))
    (object : XyoObject) (major minor : Z) :
  let this := registerAll registrations new in
  match latest registrations.*2 major minor with
  | None =>
    ∀ typed, serialize self this object major minor typed
             = Throw (XyoError ERR_CREATOR_MAPPING)
  | Some serializer =>
    serialize self this object major minor None
    = XYOSerializer.serialize serializer object self
    ∧ ∀ e typed,
        XYOSerializer.serialize serializer object self = Throw e →
        serialize self this object major minor typed = Throw e
  end.
Proof.
  intros this.
  destruct (consistent_built registrations) as [Hthis Hcoll]. fold this in Hthis, Hcoll.
  destruct (latest registrations.*2 major minor) as [s|] eqn:Hs.
  - split.
    + rewrite serialize_latest, Hcoll, Hs by exact Hthis.
      destruct (XYOSerializer.serialize s object self); reflexivity.
    + intros e typed He.
      rewrite serialize_latest, Hcoll, Hs, He by exact Hthis. reflexivity.
  - intros typed. rewrite serialize_latest, Hcoll, Hs by exact Hthis. reflexivity.
Qed.

(** X3.  On a packer built by registrations, for a name under which
    the index by name holds a serializer (the one registered last
    under it; never for ["__proto__"]), [getMajorMinor] is the type of
    that serializer, [getMajor] and [getMinor] are its two parts, and
    [getSerializerByMajorMinor] at that type finds a serializer of
    that type.  For any other name the three throw: a [TypeError] if
    the name is a member of [Object.prototype], the creator-mapping
    error otherwise. *)
Theorem getMajorMinor_finds_serializer
    (registrations : list (string * Serializer)) (name : string) :
  let this := registerAll registrations new in
  match latestNamed registrations name with
  | Some s =>
    let major := XYOSerializer.major (XYOSerializer.description s) in
    let minor := XYOSerializer.minor (XYOSerializer.description s) in
    getMajorMinor this name
    = Ok {| XYOSerializer.major := major; XYOSerializer.minor := minor |}
    ∧ getMajor this name = Ok major
    ∧ getMinor this name = Ok minor
    ∧ ∃ s', getSerializerByMajorMinor this major minor = Ok (Some s')
            ∧ hasType major minor s'
  | None =>
    let error := if decide (name ∈ ObjectPrototype) then TypeError
                 else XyoError ERR_CREATOR_MAPPING in
    getMajorMinor this name = Throw error
    ∧ getMajor this name = Throw error
    ∧ getMinor this name = Throw error
  end.
Proof.
  intros this. pose proof (getProperty_built registrations name) as H.
  cbv zeta in H. subst this.
  unfold getMajorMinor, getMajor, getMinor, getSerializerByName.
  destruct (latestNamed registrations name) as [s|] eqn:Hs.
  - destruct H as (index & -> & Hlt & ->). rewrite decide_False by lia.
    cbv zeta. split; [reflexivity|]. split; [reflexivity|]. split; [reflexivity|].
    destruct (latest_is_Some registrations.*2 s) as [s' Hs'];
      [eapply latestNamed_elem; exact Hs|].
    exists s'. split; [|eapply latest_hasType; exact Hs'].
    destruct (consistent_built registrations) as [Hthis Hcoll].
    rewrite getSerializerByMajorMinor_latest, Hcoll, Hs' by exact Hthis. reflexivity.
  - rewrite H. cbv zeta. destruct (decide (name ∈ ObjectPrototype)); auto.
Qed.

Lemma encodedSize_overflow (sizeOfData : Z) s :
  let w := XYOSerializer.sizeOfBytesToRead s in
  (w = 1 ∨ w = 2 ∨ w = 4)%Z →
  (2 ^ (8 * w) ≤ sizeOfData + w)%Z →
  encodedSize sizeOfData s = Throw RangeError.
Proof.
  intros w Hw Hover. unfold encodedSize. fold w.
  destruct Hw as [Hw|[Hw|Hw]]; rewrite Hw in *;
    rewrite decide_False by lia;
    [replace (Buffer.alloc 1) with (Ok (A:=Buffer.t) [0%Z]) by reflexivity
    |replace (Buffer.alloc 2) with (Ok (A:=Buffer.t) [0%Z; 0%Z]) by reflexivity
    |replace (Buffer.alloc 4) with (Ok (A:=Buffer.t) [0%Z; 0%Z; 0%Z; 0%Z])
       by reflexivity];
    cbv [mbind Result_bind bind];
    repeat (rewrite decide_False by lia); rewrite decide_True by reflexivity;
    unfold Buffer.writeUInt8, Buffer.writeUInt16BE, Buffer.writeUInt32BE,
      Buffer.checkInt;
    rewrite bool_decide_eq_false_2 by (simpl in Hover; lia); reflexivity.
Qed.

(** X4.  On a packer built by registrations, when the serializer of a
    registered type has size-prefix width 1, 2 or 4 and the payload is
    too long for the prefix to count ([w + |payload| >= 2^(8w)]),
    [serialize] throws a [RangeError] in typed and in untyped framing,
    while the raw framing still returns the payload. *)
Theorem serialize_oversized self (registrations : list (string * Serializer))
    (object : XyoObject) major minor s (payload : Buffer.t) :
  let this := registerAll registrations new in
  let w := XYOSerializer.sizeOfBytesToRead s in
  latest registrations.*2 major minor = Some s →
  XYOSerializer.serialize s object self = Ok payload →
  (w = 1 ∨ w = 2 ∨ w = 4)%Z →
  (2 ^ (8 * w) ≤ w + Z.of_nat (length payload))%Z →
  serialize self this object major minor (Some true) = Throw RangeError
  ∧ serialize self this object major minor (Some false) = Throw RangeError
  ∧ serialize self this object major minor None = Ok payload.
Proof.
  intros this w Hs Hpayload Hw Hover.
  destruct (consistent_built registrations) as [Hthis Hcoll]. fold this in Hthis, Hcoll.
  assert (encodedSize (Z.of_nat (length payload)) s = Throw RangeError) as Henc
    by (apply encodedSize_overflow; [exact Hw | fold w; lia]).
  rewrite !serialize_latest, Hcoll, Hs, Hpayload by exact Hthis.
  cbv [mbind Result_bind bind].
  rewrite makeTyped_eq, makeUntyped_eq, Henc. auto.
Qed.


End Facts.
End PackerMoreFacts.

Module PackerMoreExamples.
Import XyoPacker PackerFacts XyoPackerNames PackerMoreFacts.

(** X1, at the sample packer: the type [(9, 9)] is not registered. *)
Lemma serialize_dispatch_witness :
  serialize Sample.self Sample.packer (Sample.Blob 9 9 [1]%Z) 9 9 (Some true)
  = Throw (XyoError ERR_CREATOR_MAPPING)
  ∧ serialize Sample.self Sample.packer (Sample.Blob 9 9 [1]%Z) 9 9 None
    = Throw (XyoError ERR_CREATOR_MAPPING).
Proof.
  split.
  - exact (serialize_dispatch Sample.self Sample.registrations
             (Sample.Blob 9 9 [1]%Z) 9 9 (Some true)).
  - exact (serialize_dispatch Sample.self Sample.registrations
             (Sample.Blob 9 9 [1]%Z) 9 9 None).
Defined.

(** X4, at the sample packer: 255 bytes under a one-byte prefix. *)
Lemma serialize_oversized_witness :
  let object := Sample.Blob 8 1 (replicate 255 0%Z) in
  serialize Sample.self Sample.packer object 8 1 (Some true) = Throw RangeError
  ∧ serialize Sample.self Sample.packer object 8 1 (Some false) = Throw RangeError
  ∧ serialize Sample.self Sample.packer object 8 1 None = Ok (replicate 255 0%Z).
Proof.
  apply (serialize_oversized Sample.self Sample.registrations
           (Sample.Blob 8 1 (replicate 255 0%Z)) 8 1 Sample.byteSized
           (replicate 255 0%Z)).
  - vm_compute. reflexivity.
  - reflexivity.
  - left. reflexivity.
  - vm_compute. discriminate.
Defined.


(** The index by name and [Object.prototype], at the sample packer:
    ["toString"] was never registered and is found all the same, as
    a member that is no serializer; a serializer registered as
    ["__proto__"] is not found under that name. *)
Example getSerializerByName_inherited :
  getSerializerByName Sample.packer "toString" = Ok None
  ∧ getMajor Sample.packer "toString" = Throw TypeError
  ∧ getSerializerByName Sample.packer "XyoTransfer"
    = Throw (XyoError ERR_CREATOR_MAPPING)
  ∧ getSerializerByName
      (registerSerializerDeserializer "__proto__" Sample.shortSized Sample.packer)
      "__proto__" = Ok None.
Proof. vm_compute. auto. Qed.

End PackerMoreExamples.

(** ** The TCP pipe, receiving *)

Module ReceiverFacts.
Import XyoTcpNetworkPipe XyoTcpReceiver.

Lemma padBufferWithSize_bytes (b framed : Buffer.t) :
  padBufferWithSize b = Ok framed →
  ∃ b0 b1 b2 b3 : Z,
    framed = b0 :: b1 :: b2 :: b3 :: b
    ∧ ((((b0 * 256 + b1) * 256 + b2) * 256 + b3) = Z.of_nat (length b) + 4)%Z.
Proof.
  unfold padBufferWithSize. intros H.
  destruct (decide (0 ≤ Z.of_nat (length b) + 4 ≤ 4294967295)%Z) as [Hin|Hout].
  - destruct (BufferFacts.writeUInt32BE_alloc _ Hin)
      as (sizeField & Hwrite & Hlen & Hvalue & _).
    cbv [mbind Result_bind bind] in *.
    destruct (Buffer.alloc 4) as [buffer|]; [|discriminate].
    rewrite Hwrite in H. injection H as <-.
    destruct sizeField as [|b0 [|b1 [|b2 [|b3 [|]]]]]; try discriminate.
    exists b0, b1, b2, b3. split.
    + unfold Buffer.concat. simpl. rewrite app_nil_r. reflexivity.
    + rewrite <- Hvalue. unfold Buffer.readUIntBE. simpl. lia.
  - exfalso. cbv [mbind Result_bind bind] in H.
    destruct (Buffer.alloc 4) as [buffer|]; [|discriminate].
    unfold Buffer.writeUInt32BE, Buffer.checkInt in H.
    rewrite bool_decide_eq_false_2 in H by exact Hout. discriminate.
Qed.

(** Once the listener is removed, chunks change nothing. *)
Lemma removed_is_inert (r : Receiving) (chunks : list Buffer.t) :
  installed r = false → foldl onData r chunks = r.
Proof.
  intros H. induction chunks as [|chunk chunks IH]; [reflexivity|].
  cbn [foldl]. unfold onData at 2. rewrite H. exact IH.
Qed.

(** The chunks after the first, while the message is incomplete. *)
Lemma gather_rest (framed : Buffer.t) (rest : list Buffer.t) :
  ∀ (acc : Buffer.t) (e : bool),
    acc ++ List.concat rest = framed →
    length acc < length framed →
    foldl onData
      {| closure := {| data := Some acc;
                       sizeOfPayload := Some (Z.of_nat (length framed)) |};
         installed := true; promise := Forever; ended := e |} rest
    = {| closure := {| data := Some framed;
                       sizeOfPayload := Some (Z.of_nat (length framed)) |};
         installed := false; promise := Fulfilled (drop 4 framed); ended := e |}.
Proof.
  induction rest as [|chunk rest IH]; intros acc e Hsplit Hshort.
  - simpl in Hsplit. rewrite app_nil_r in Hsplit. subst acc. lia.
  - cbn [foldl]. unfold onData at 2, onSendOnData, gather.
    cbn [installed closure data sizeOfPayload default].
    unfold Buffer.concat. simpl List.concat. rewrite app_nil_r.
    simpl in Hsplit. rewrite (assoc_L (++)) in Hsplit.
    destruct (decide (Some (Z.of_nat (length framed))
                      = Some (Z.of_nat (length (acc ++ chunk))))) as [Heq|Hne].
    + injection Heq as Heq. apply Nat2Z.inj in Heq.
      assert (List.concat rest = []) as Hnil.
      { apply (f_equal length) in Hsplit. rewrite length_app in Hsplit.
        apply length_zero_iff_nil. lia. }
      rewrite Hnil, app_nil_r in Hsplit.
      cbn [foldl act closure installed promise ended settle].
      rewrite removed_is_inert by reflexivity.
      unfold Buffer.slice. rewrite Hsplit. reflexivity.
    + cbn [foldl act]. apply IH; [exact Hsplit|].
      assert (length (acc ++ chunk) ≤ length framed)
        by (rewrite <- Hsplit, (length_app (acc ++ chunk)); lia).
      assert (length framed ≠ length (acc ++ chunk)) by congruence.
      lia.
Qed.

Lemma receive_framed (b framed first : Buffer.t) (rest : list Buffer.t) :
  padBufferWithSize b = Ok framed →
  4 ≤ length first →
  first ++ List.concat rest = framed →
  receive (first :: rest)
  = {| closure := {| data := Some framed;
                     sizeOfPayload := Some (Z.of_nat (length framed)) |};
       installed := false; promise := Fulfilled b; ended := false |}.
Proof.
  intros Hpad Hfour Hsplit.
  destruct (padBufferWithSize_bytes b framed Hpad) as (b0 & b1 & b2 & b3 & Hframed & Hsize).
  assert (length framed = length b + 4) as Hlen by (rewrite Hframed; simpl; lia).
  assert (drop 4 framed = b) as Hdrop by (rewrite Hframed; reflexivity).
  assert (readUInt32BE first 0 = Ok (Z.of_nat (length framed))) as Hread.
  { destruct first as [|c0 [|c1 [|c2 [|c3 tail]]]]; try (simpl in Hfour; lia).
    rewrite Hframed in Hsplit. simpl in Hsplit.
    injection Hsplit as -> -> -> -> _.
    unfold readUInt32BE. simpl. rewrite Hsize, Hlen. f_equal. lia. }
  unfold receive. cbn [foldl]. unfold onData at 2, waiting, onSendOnData, fresh.
  cbn [installed closure data].
  rewrite decide_False by lia. rewrite Hread. unfold gather.
  cbn [data sizeOfPayload default]. unfold Buffer.concat. simpl List.concat.
  rewrite app_nil_r.
  destruct (decide (Some (Z.of_nat (length framed))
                    = Some (Z.of_nat (length first)))) as [Heq|Hne].
  - injection Heq as Heq. apply Nat2Z.inj in Heq.
    assert (List.concat rest = []) as Hnil.
    { apply (f_equal length) in Hsplit. rewrite length_app in Hsplit.
      apply length_zero_iff_nil. lia. }
    rewrite Hnil, app_nil_r in Hsplit.
    cbn [foldl act closure installed promise ended settle].
    rewrite removed_is_inert by reflexivity.
    unfold Buffer.slice. rewrite Hsplit, Hdrop. reflexivity.
  - cbn [foldl act]. rewrite <- Hdrop. apply gather_rest; [exact Hsplit|].
    assert (length first ≤ length framed)
      by (rewrite <- Hsplit, length_app; lia).
    assert (length framed ≠ length first) by congruence.
    lia.
Qed.

(** X6.  What [padBufferWithSize] frames, the listener of
    [onSendOnDataFn] unframes: when the framed message of [b] arrives
    in chunks, the first of at least four bytes, the promise is
    resolved with [b], the listener is removed and the socket is not
    ended. *)
Theorem receive_framed_message (b framed first : Buffer.t) (rest : list Buffer.t) :
  padBufferWithSize b = Ok framed →
  4 ≤ length first →
  first ++ List.concat rest = framed →
  promise (receive (first :: rest)) = Fulfilled b
  ∧ installed (receive (first :: rest)) = false
  ∧ ended (receive (first :: rest)) = false.
Proof.
  intros Hpad Hfour Hsplit.
  rewrite (receive_framed b framed first rest Hpad Hfour Hsplit). auto.
Qed.

(** A settled promise stays as it is, and an ended socket stays
    ended. *)
Lemma onData_keeps (r : Receiving) (chunk : Buffer.t) :
  (promise r ≠ Forever → promise (onData r chunk) = promise r)
  ∧ (ended r = true → ended (onData r chunk) = true).
Proof.
  unfold onData, onSendOnData, gather.
  destruct (installed r); [|auto].
  destruct (data (closure r)); repeat case_decide;
    try destruct (readUInt32BE chunk 0); repeat case_decide;
    simpl; (split; [destruct (promise r); simpl; congruence | auto]).
Qed.

Lemma chunks_keep (chunks : list Buffer.t) (r : Receiving) :
  (promise r ≠ Forever → promise (foldl onData r chunks) = promise r)
  ∧ (ended r = true → ended (foldl onData r chunks) = true).
Proof.
  revert r. induction chunks as [|chunk chunks IH]; intros r; [auto|].
  cbn [foldl]. destruct (onData_keeps r chunk) as [Hp He].
  destruct (IH (onData r chunk)) as [IHp IHe]. split.
  - intros H. rewrite IHp; [auto|]. rewrite Hp; assumption.
  - intros H. apply IHe, He, H.
Qed.

(** X7.  When the first chunk has fewer than four bytes, the listener
    ends the socket and rejects the promise with the critical error,
    whatever arrives afterwards; the listener itself is not removed. *)
Theorem receive_short_first_chunk (first : Buffer.t) (rest : list Buffer.t) :
  length first < 4 →
  promise (receive (first :: rest)) = Rejected (XyoError ERR_CRITICAL)
  ∧ ended (receive (first :: rest)) = true
  ∧ installed (receive [first]) = true.
Proof.
  intros Hshort.
  assert (onData waiting first
          = {| closure := fresh; installed := true;
               promise := Rejected (XyoError ERR_CRITICAL); ended := true |}) as H.
  { unfold onData, waiting, onSendOnData, fresh. cbn [installed closure data].
    rewrite decide_True by exact Hshort. reflexivity. }
  unfold receive. cbn [foldl]. rewrite H.
  destruct (chunks_keep rest
              {| closure := fresh; installed := true;
                 promise := Rejected (XyoError ERR_CRITICAL); ended := true |})
    as [Hp He].
  split; [apply Hp; discriminate|]. split; [apply He; reflexivity | reflexivity].
Qed.

(** The chunks after more bytes have arrived than were announced. *)
Lemma overrun_rest (size : Z) (rest : list Buffer.t) :
  ∀ (acc : Buffer.t) (e : bool),
    (size < Z.of_nat (length acc))%Z →
    ∃ acc' : Buffer.t,
      foldl onData
        {| closure := {| data := Some acc; sizeOfPayload := Some size |};
           installed := true; promise := Forever; ended := e |} rest
      = {| closure := {| data := Some acc'; sizeOfPayload := Some size |};
           installed := true; promise := Forever; ended := e |}.
Proof.
  induction rest as [|chunk rest IH]; intros acc e Hover; [eauto|].
  cbn [foldl]. unfold onData at 2, onSendOnData, gather.
  cbn [installed closure data sizeOfPayload default].
  unfold Buffer.concat. simpl List.concat. rewrite app_nil_r.
  rewrite decide_False.
  - cbn [foldl act]. apply IH. rewrite length_app. lia.
  - intros [= Heq]. rewrite length_app in Heq. lia.
Qed.

(** X8.  When the first chunk holds more bytes than its first four
    bytes announce (a second message in the same chunk, for one),
    the promise is never settled, whatever arrives afterwards, and
    the listener stays installed. *)
Theorem receive_overrun (first : Buffer.t) (rest : list Buffer.t) (size : Z) :
  readUInt32BE first 0 = Ok size →
  (size < Z.of_nat (length first))%Z →
  promise (receive (first :: rest)) = Forever
  ∧ installed (receive (first :: rest)) = true.
Proof.
  intros Hread Hover.
  assert (4 ≤ length first) as Hfour.
  { unfold readUInt32BE in Hread.
    destruct first as [|c0 [|c1 [|c2 [|c3 tail]]]]; try discriminate. simpl. lia. }
  assert (∃ acc' : Buffer.t,
             receive (first :: rest)
             = {| closure := {| data := Some acc'; sizeOfPayload := Some size |};
                  installed := true; promise := Forever; ended := false |})
    as [acc' ->]; [|auto].
  unfold receive. cbn [foldl]. unfold onData at 2, waiting, onSendOnData, fresh.
  cbn [installed closure data].
  rewrite decide_False by lia. rewrite Hread. unfold gather.
  cbn [data sizeOfPayload default]. unfold Buffer.concat. simpl List.concat.
  rewrite app_nil_r. rewrite decide_False by (intros [= Heq]; lia).
  cbn [foldl act]. apply overrun_rest. exact Hover.
Qed.

(** X6, X7 and X8 at small messages. *)
Lemma receive_framed_message_witness :
  promise (receive [[0; 0; 0; 6; 7]%Z; [9]%Z]) = Fulfilled [7; 9]%Z
  ∧ installed (receive [[0; 0; 0; 6; 7]%Z; [9]%Z]) = false
  ∧ ended (receive [[0; 0; 0; 6; 7]%Z; [9]%Z]) = false.
Proof.
  apply (receive_framed_message [7; 9]%Z [0; 0; 0; 6; 7; 9]%Z
           [0; 0; 0; 6; 7]%Z [[9]%Z]).
  - vm_compute. reflexivity.
  - simpl. lia.
  - reflexivity.
Defined.

Lemma receive_short_first_chunk_witness :
  promise (receive [[0; 0; 0]%Z; [6; 7; 9]%Z]) = Rejected (XyoError ERR_CRITICAL)
  ∧ ended (receive [[0; 0; 0]%Z; [6; 7; 9]%Z]) = true
  ∧ installed (receive [[0; 0; 0]%Z]) = true.
Proof.
  apply (receive_short_first_chunk [0; 0; 0]%Z [[6; 7; 9]%Z]). simpl. lia.
Defined.

Lemma receive_overrun_witness :
  promise (receive [[0; 0; 0; 5; 1; 0; 0; 0; 5; 2]%Z; [3]%Z]) = Forever
  ∧ installed (receive [[0; 0; 0; 5; 1; 0; 0; 0; 5; 2]%Z; [3]%Z]) = true.
Proof.
  apply (receive_overrun [0; 0; 0; 5; 1; 0; 0; 0; 5; 2]%Z [[3]%Z] 5).
  - reflexivity.
  - simpl. lia.
Defined.

End ReceiverFacts.

(** ** More on the interaction driver *)

Module InteractionMoreFacts.
Import XyoBoundWitnessInteraction.

(** Case analysis on the steps of [run], innermost first. *)
Ltac run_cases :=
  unfold run, await, orThrow; cbn [negb orb fst snd];
  repeat match goal with
         | |- context [match ?x with _ => _ end] =>
           lazymatch x with
           | context [match _ with _ => _ end] => fail
           | _ => let E := fresh "Ecase" in
                  destruct x eqn:E; cbn [negb orb fst snd]
           end
         end.


Section Facts.
Context {XyoObject XyoSigner XyoPayload ZigZag : Type}.
Context (major minor : XyoObject → Z).
Context (XyoZigZagBoundWitness :
           XyoPacker.t XyoObject → list XyoSigner → XyoPayload → ZigZag).
Context (incomingData :
           ZigZag → option XyoObject → bool → Settled (ZigZag * XyoObject)).
Context (asObject : ZigZag → XyoObject).
Context (XyoBoundWitnessTransfer_name : string).
Context (BOUND_WITNESS : Z).

Abbreviation driver :=
  (run major minor XyoZigZagBoundWitness incomingData asObject
     XyoBoundWitnessTransfer_name BOUND_WITNESS).


(** X10.  When the packer has no serializer under the name of the
    transfer class, no run is fulfilled and no run sends the second
    message: the response cannot be decoded. *)
Theorem run_needs_transfer_serializer self this (e : Exception) :
  XyoPacker.getSerializerByName (xyoPacker this) XyoBoundWitnessTransfer_name
  = Throw e →
  (∀ boundWitness, (driver self this).1 ≠ Fulfilled boundWitness)
  ∧ length (sent (driver self this).2) ≤ 1.
Proof.
  intros Hname. run_cases.
  all: try (rewrite Hname in *; discriminate).
  all: split; [intros ?; discriminate | simpl; lia].
Qed.

End Facts.
End InteractionMoreFacts.

Module InteractionMoreExamples.
Import XyoBoundWitnessInteraction InteractionMoreFacts.


(** X10, at the sample peer with the transfer serializer under
    another name: the first message is sent and the promise never
    settles. *)
Lemma run_needs_transfer_serializer_witness :
  let result :=
    run Sample.major Sample.minor (fun _ _ _ => []) Sample.incomingData
      (Sample.Blob 2 1) "XyoBoundWitnessTransfer" 1
      (XyoPacker.view 1 SampleNested.packerMisnamed)
      SampleNested.interactionMisnamed in
  ((∀ boundWitness : list Z, result.1 ≠ Fulfilled boundWitness)
   ∧ length (sent result.2) ≤ 1)
  ∧ result.1 = Forever
  ∧ length (sent result.2) = 1.
Proof.
  split.
  - apply (run_needs_transfer_serializer Sample.major Sample.minor
             (fun _ _ _ => []) Sample.incomingData (Sample.Blob 2 1)
             "XyoBoundWitnessTransfer" 1
             (XyoPacker.view 1 SampleNested.packerMisnamed)
             SampleNested.interactionMisnamed (XyoError ERR_CREATOR_MAPPING)).
    vm_compute. reflexivity.
  - split; vm_compute; reflexivity.
Defined.

End InteractionMoreExamples.

(** ** The previous-hash serializer *)

Module PreviousHashFacts.
Import XyoPacker PackerFacts.

Section Facts.
Context {XyoObject : Type}.
Abbreviation Serializer := (XYOSerializer.t XyoObject).
Context (XyoPreviousHash : XyoObject → XyoObject).
Context (id : XyoObject → Buffer.t).
Context (readSizeOf : Serializer → Buffer.t → Result Z).
Context (sizeOfBytesToRead : Z).

Abbreviation previousHash :=
  (XyoPreviousHashSerializer.serializer XyoPreviousHash id sizeOfBytesToRead).

(** X11.  On a packer built by registrations, [readSize] adds 2 to
    the size the serializer of the type in the first two bytes reads;
    it throws the creator-mapping error when the major byte is known
    and the minor byte is not (or is missing), and a [TypeError], not
    that error, when no serializer of the major byte was ever
    registered or the buffer is empty. *)
Theorem readSize_by_type (registrations : list (string * Serializer))
    (buffer : Buffer.t) :
  XyoPreviousHashSerializer.readSize readSizeOf buffer
    (registerAll registrations new)
  = match buffer with
    | [] => Throw TypeError
    | major :: rest =>
      match match rest with
            | minor :: _ => latest registrations.*2 major minor
            | [] => None
            end with
      | Some hashCreator =>
        size ← readSizeOf hashCreator
                 (XyoPreviousHashSerializer.sliceTo buffer 2 (2 + XYOSerializer.sizeOfBytesToRead hashCreator));
        Ok (size + 2)%Z
      | None =>
        if decide (majorRegistered registrations.*2 major)
        then Throw (XyoError ERR_CREATOR_MAPPING)
        else Throw TypeError
      end
    end.
Proof.
  destruct (consistent_built registrations) as [Hthis Hcoll].
  unfold XyoPreviousHashSerializer.readSize,
    XyoPreviousHashSerializer.getSerializerByBytes.
  destruct buffer as [|major [|minor rest]]; [reflexivity| |].
  - change ([major] !! 0) with (Some major). change ([major] !! 1) with (@None Z).
    cbv iota.
    pose proof (consistent_major _ Hthis major) as Hmajor. rewrite Hcoll in Hmajor.
    destruct (serializerDeserializerMajorMinorIndex
                (registerAll registrations new) !! major) as [minors|].
    + rewrite decide_True by (apply Hmajor; eauto). reflexivity.
    + rewrite decide_False; [reflexivity|].
      intros Hreg. apply Hmajor in Hreg. destruct Hreg as [? [=]].
  - change ((major :: minor :: rest) !! 0) with (Some major).
    change ((major :: minor :: rest) !! 1) with (Some minor). cbv iota.
    rewrite getSerializerByMajorMinor_latest, Hcoll by exact Hthis.
    destruct (latest registrations.*2 major minor); [reflexivity|].
    destruct (decide (majorRegistered registrations.*2 major)); reflexivity.
Qed.

(** X12.  On a packer built by registrations in which the type
    [(2, 6)] is the previous-hash serializer, deserializing
    [2, 6, major, minor, rest...] hands [rest] to the serializer of
    [(major, minor)] and wraps its result in a previous hash: the
    bytes after [2, 6] are read as a typed value, whatever size prefix
    the previous-hash serializer declares.  It throws the
    creator-mapping error when fewer than two bytes follow or the
    inner type is unknown. *)
Theorem deserialize_previous_hash (registrations : list (string * Serializer))
    (fuel : nat) (rest : Buffer.t) :
  let this := registerAll registrations new in
  latest registrations.*2 2 6 = Some previousHash →
  deserialize (view (S fuel) this) this (2 :: 6 :: rest)%Z
  = match rest with
    | major :: minor :: rest' =>
      match latest registrations.*2 major minor with
      | Some hashSerializer =>
        hash ← XYOSerializer.deserialize hashSerializer rest' (view fuel this);
        Ok (XyoPreviousHash hash)
      | None => Throw (XyoError ERR_CREATOR_MAPPING)
      end
    | _ => Throw (XyoError ERR_CREATOR_MAPPING)
    end.
Proof.
  intros this Hprev.
  destruct (consistent_built registrations) as [Hthis Hcoll]. fold this in Hthis, Hcoll.
  rewrite deserialize_latest, Hcoll, Hprev by exact Hthis.
  cbn [XYOSerializer.deserialize XyoPreviousHashSerializer.serializer].
  unfold XyoPreviousHashSerializer.deserialize.
  cbn [view XYOSerializer.view_deserialize].
  rewrite deserialize_latest, Hcoll by exact Hthis.
  destruct rest as [|major [|minor rest']]; try reflexivity.
  destruct (latest registrations.*2 major minor); reflexivity.
Qed.

(** X13.  On a packer built by registrations in which the type
    [(2, 6)] is the previous-hash serializer, serializing under
    [(2, 6)] an object whose own [id] is [2, 6] never returns: the
    serializer hands the same object and type back to the packer, at
    every depth of nesting. *)
Theorem serialize_previous_hash_recurs (registrations : list (string * Serializer))
    (object : XyoObject) (typed : option bool) (fuel : nat) :
  let this := registerAll registrations new in
  latest registrations.*2 2 6 = Some previousHash →
  id object = [2; 6]%Z →
  serialize (view fuel this) this object 2 6 typed = Throw OutOfFuel.
Proof.
  intros this Hprev Hid.
  destruct (consistent_built registrations) as [Hthis Hcoll]. fold this in Hthis, Hcoll.
  revert typed. induction fuel as [|fuel IH]; intros typed.
  - rewrite serialize_latest, Hcoll, Hprev by exact Hthis.
    cbn [XYOSerializer.serialize XyoPreviousHashSerializer.serializer].
    unfold XyoPreviousHashSerializer.serialize. rewrite Hid. reflexivity.
  - rewrite serialize_latest, Hcoll, Hprev by exact Hthis.
    cbn [XYOSerializer.serialize XyoPreviousHashSerializer.serializer].
    unfold XyoPreviousHashSerializer.serialize. rewrite Hid.
    change ([2; 6]%Z !! 0) with (Some 2%Z). change ([2; 6]%Z !! 1) with (Some 6%Z).
    cbv iota. cbn [view XYOSerializer.view_serialize].
    rewrite IH. reflexivity.
Qed.

End Facts.
End PreviousHashFacts.

Module PreviousHashExamples.
Import XyoPacker PackerFacts PreviousHashFacts.

Lemma deserialize_previous_hash_witness :
  deserialize (view 1 SampleNested.packer) SampleNested.packer [2; 6; 3; 5; 9; 9]%Z
  = (hash ← XYOSerializer.deserialize SampleNested.sha256 [9; 9]%Z
              (view 0 SampleNested.packer);
     Ok (SampleNested.XyoPreviousHash hash))
  ∧ deserialize (view 1 SampleNested.packer) SampleNested.packer [2; 6; 3; 5; 9; 9]%Z
    = Ok (Sample.Blob 2 6 [9; 9]%Z).
Proof.
  split; [|vm_compute; reflexivity].
  apply (deserialize_previous_hash SampleNested.XyoPreviousHash SampleNested.id 0
           SampleNested.registrations 0 [3; 5; 9; 9]%Z).
  vm_compute. reflexivity.
Defined.

Lemma serialize_previous_hash_recurs_witness :
  serialize (view 7 SampleNested.packer) SampleNested.packer
    (Sample.Blob 2 6 [1]%Z) 2 6 (Some true)
  = Throw OutOfFuel.
Proof.
  apply (serialize_previous_hash_recurs SampleNested.XyoPreviousHash SampleNested.id 0
           SampleNested.registrations (Sample.Blob 2 6 [1]%Z) (Some true) 7).
  - vm_compute. reflexivity.
  - vm_compute. reflexivity.
Defined.

End PreviousHashExamples.
